(** * The KVM hypervisor driver of Ganeti (lib/hypervisor/hv_kvm.py)

    A shallow embedding of [KVMHypervisor]: the Python values the driver
    handles, the part of the operating system it reads and writes (files,
    the process table), a state-and-exception monad for its methods, and
    the methods themselves, followed by the properties of the driver. *)

From Stdlib Require Import ZArith String Ascii List Lia DecimalString.
From stdpp Require Import base option gmap strings list fin_maps.

Local Open Scope Z_scope.
Local Open Scope string_scope.
Local Open Scope list_scope.

(** ** Python values and string primitives *)

Module Py.

(** The dynamically typed values that flow through the driver: [None],
    booleans, integers and (byte) strings. *)
Inductive pyval :=
  | VNone
  | VBool (b : bool)
  | VInt (z : Z)
  | VStr (s : string).

(** Truth value of an object, as [if x:] and [not x] compute it. *)
Definition truthy (v : pyval) : bool :=
  match v with
  | VNone => false
  | VBool b => b
  | VInt z => negb (Z.eqb z 0)
  | VStr s => negb (String.eqb s "")
  end.

(** Exceptions the driver raises or lets through. *)
Inductive exn :=
  | HypervisorError (msg : string)
  | TypeError (msg : string)
  | KeyError (key : string)
  | IndexError (msg : string)
  | ValueError (msg : string)
  | AttributeError (msg : string)
  | OSError (msg : string).

Inductive result (A : Type) :=
  | Ok (a : A)
  | Raise (e : exn).
Arguments Ok {A} a.
Arguments Raise {A} e.

(** [d[k]] on a dict. *)
Definition getitem {V} (d : gmap string V) (k : string) : result V :=
  match d !! k with
  | Some v => Ok v
  | None => Raise (KeyError k)
  end.

Definition NUL : ascii := "000"%char.
Definition LF : ascii := "010"%char.

(** [c.isspace()] for a byte: space, TAB, LF, VT, FF, CR. *)
Definition isspace (c : ascii) : bool :=
  let n := N_of_ascii c in
  ((n =? 32) || ((9 <=? n) && (n <=? 13)))%N.

(** [s.split(sep)] for a one-character separator. *)
Fixpoint split (sep : ascii) (s : string) : list string :=
  match s with
  | EmptyString => [EmptyString]
  | String c rest =>
      if Ascii.eqb c sep then EmptyString :: split sep rest
      else match split sep rest with
           | p :: ps => String c p :: ps
           | [] => [String c EmptyString]
           end
  end.

(** [s.split(sep, 1)]: at most one cut, at the first separator. *)
Fixpoint split1 (sep : ascii) (s : string) : list string :=
  match s with
  | EmptyString => [EmptyString]
  | String c rest =>
      if Ascii.eqb c sep then [EmptyString; rest]
      else match split1 sep rest with
           | p :: ps => String c p :: ps
           | [] => [String c EmptyString]
           end
  end.

Fixpoint lstrip (s : string) : string :=
  match s with
  | EmptyString => EmptyString
  | String c rest => if isspace c then lstrip rest else s
  end.

Fixpoint rstrip (s : string) : string :=
  match s with
  | EmptyString => EmptyString
  | String c rest =>
      match rstrip rest with
      | EmptyString => if isspace c then EmptyString else String c EmptyString
      | r => String c r
      end
  end.

(** [s.strip()] *)
Definition strip (s : string) : string := lstrip (rstrip s).

(** [s.split()] with no separator: the maximal runs of non-space bytes.
    [tok] is the run being read, if any. *)
Fixpoint words_from (tok : option string) (s : string) : list string :=
  match s with
  | EmptyString => match tok with Some t => [t] | None => [] end
  | String c rest =>
      if isspace c then
        match tok with
        | Some t => t :: words_from None rest
        | None => words_from None rest
        end
      else
        words_from (Some (default EmptyString tok +:+ String c EmptyString)) rest
  end.

Definition words (s : string) : list string := words_from None s.

(** [fh.readlines()]: the lines of a file, each with its terminating LF
    (the last one may lack it). *)
Fixpoint lines_from (cur : string) (s : string) : list string :=
  match s with
  | EmptyString => if String.eqb cur "" then [] else [cur]
  | String c rest =>
      if Ascii.eqb c LF then (cur +:+ String c EmptyString) :: lines_from "" rest
      else lines_from (cur +:+ String c EmptyString) rest
  end.

Definition readlines (s : string) : list string := lines_from "" s.

Definition digit_of (c : ascii) : option Z :=
  let n := N_of_ascii c in
  if ((48 <=? n) && (n <=? 57))%N then Some (Z.of_N n - 48) else None.

Fixpoint digits_from (acc : Z) (s : string) : option Z :=
  match s with
  | EmptyString => Some acc
  | String c rest =>
      match digit_of c with
      | Some d => digits_from (10 * acc + d) rest
      | None => None
      end
  end.

Definition unsigned (s : string) : option Z :=
  match s with
  | EmptyString => None
  | _ => digits_from 0 s
  end.

(** [int(s)] on a string: surrounding white space, an optional sign, then
    decimal digits; anything else is a [ValueError]. *)
Definition int (s : string) : result Z :=
  let bad := Raise (ValueError ("invalid literal for int() with base 10: " +:+ s)) in
  match strip s with
  | String "-" r => match unsigned r with Some n => Ok (- n) | None => bad end
  | String "+" r => match unsigned r with Some n => Ok n | None => bad end
  | r => match unsigned r with Some n => Ok n | None => bad end
  end.

(** [l[0]] on a list. *)
Definition first {A} (l : list A) : result A :=
  match l with
  | x :: _ => Ok x
  | [] => Raise (IndexError "list index out of range")
  end.

(** [fmt % args] for a format with [%s] directives only and string
    arguments; a lone string on the right of [%] is a one-element list. *)
Fixpoint format (fmt : string) (args : list string) : result string :=
  match fmt with
  | EmptyString =>
      match args with
      | [] => Ok EmptyString
      | _ => Raise (TypeError "not all arguments converted during string formatting")
      end
  | String "%" (String "s" rest) =>
      match args with
      | a :: args' =>
          match format rest args' with
          | Ok r => Ok (a +:+ r)
          | Raise e => Raise e
          end
      | [] => Raise (TypeError "not enough arguments for format string")
      end
  | String c rest =>
      match format rest args with
      | Ok r => Ok (String c r)
      | Raise e => Raise e
      end
  end.

(** [str(v)] *)
Definition str (v : pyval) : string :=
  match v with
  | VNone => "None"
  | VBool true => "True"
  | VBool false => "False"
  | VInt z => NilZero.string_of_int (Z.to_int z)
  | VStr s => s
  end.

(** [os.path.isabs(p)] (posixpath): [p.startswith('/')]. *)
Definition isabs (p : string) : bool :=
  match p with
  | String "/" _ => true
  | _ => false
  end.

End Py.
Export Py.


(** ** The host: files, processes, and what the driver did to them *)

(** A regular file: its bytes and its permission bits. *)
Record file := File { f_data : string; f_mode : Z }.

(** What reading [/proc/<pid>/cmdline] of a live process gives. *)
Inductive cmdline_read :=
  | CmdlineError (err : string)
  | Cmdline (data : string).

(** The part of the operating system the driver observes: the regular
    files by path, and the live processes by pid. *)
Record os_state := OsState {
  files : gmap string file;
  procs : gmap Z cmdline_read
}.

(** A command handed to [utils.RunCmd]: an argument vector or a shell line. *)
Inductive command :=
  | Argv (args : list pyval)
  | Shell (line : string).

(** The result object of [utils.RunCmd]. *)
Record RunResult := mkRunResult {
  failed : bool;
  fail_reason : string;
  output : string
}.

(** The effects of the driver on the host, in the order they happen. *)
Inductive event :=
  | EvCreateFile (path : string)
  | EvRunCmd (cmd : command)
  | EvKillProcess (pid : Z)
  | EvRemoveFile (path : string).

Record world := World {
  os : os_state;
  trace : list event
}.

(** ** The monad of the driver's methods: state and exceptions *)

Definition M (A : Type) : Type := world -> result A * world.

#[global] Instance result_ret : MRet result := fun A a => Ok a.
#[global] Instance result_bind : MBind result := fun A B k r =>
  match r with
  | Ok a => k a
  | Raise e => Raise e
  end.

#[global] Instance M_ret : MRet M := fun A a w => (Ok a, w).
#[global] Instance M_bind : MBind M := fun A B k m w =>
  match m w with
  | (Ok a, w') => k a w'
  | (Raise e, w') => (Raise e, w')
  end.

Definition raise {A} (e : exn) : M A := fun w => (Raise e, w).
Definition lift {A} (r : result A) : M A := fun w => (r, w).
Definition get_os : M os_state := fun w => (Ok (os w), w).
Definition emit (e : event) (f : os_state -> os_state) : M unit :=
  fun w => (Ok tt, {| os := f (os w); trace := trace w ++ [e] |}).

(** [raise errors.HypervisorError(fmt % args)]: the message is formatted
    first, and a failure of the formatting is what gets raised. *)
Definition raise_HypervisorError {A} (fmt : string) (args : list string) : M A :=
  msg ← lift (format fmt args);
  raise (HypervisorError msg).

(** ** The instance objects the orchestrator passes in *)

Record NIC := mkNIC {
  mac : string;
  ip : option string;
  bridge : string
}.

Record Instance := mkInstance {
  name : string;
  beparams : gmap string pyval;
  hvparams : gmap string pyval;
  nics : list NIC
}.

(** The logical disk object of a block device pair; the driver does not
    look inside it. *)
Record Disk := mkDisk { iv_name : string }.

(** The resolved host-side device of a block device pair. *)
Record BlockDev := mkBlockDev { dev_path : string }.

(** The six-tuple [GetInstanceInfo] returns. *)
Definition instance_info : Type := string * Z * pyval * pyval * string * string.

(** ** What the driver imports *)

(** The values of [ganeti.constants] the driver uses. *)
Class Constants := {
  RUN_GANETI_DIR : string;
  KVM_PATH : string;
  HV_KERNEL_PATH : string;
  HV_INITRD_PATH : string;
  HV_ACPI : string;
  BE_MEMORY : string;
  BE_VCPUS : string
}.

(** The behaviour of the host and of the imported code the driver calls:
    what running a command does and reports, which name [tempfile.mkstemp]
    picks ([None]: it fails), what killing a process does, how many matches
    [re.findall] finds for the processor pattern, and the two checks of the
    base class [hv_base.BaseHypervisor]. *)
Class Host := {
  run_cmd : command -> os_state -> RunResult * os_state;
  mkstemp : os_state -> option string;
  kill_process : Z -> os_state -> os_state;
  count_processors : string -> Z;
  base_CheckParameterSyntax : gmap string pyval -> result unit;
  base_ValidateParameters : gmap string pyval -> os_state -> result unit
}.

Definition nl : string := String LF EmptyString.

(** [str(err)] of the [IOError] for a file that cannot be opened. *)
Definition strerror (path : string) : string :=
  "[Errno 2] No such file or directory: '" +:+ path +:+ "'".

Section Driver.
Context `{!Constants} `{!Host}.

Definition _ROOT_DIR : string := RUN_GANETI_DIR +:+ "/kvm-hypervisor".
Definition _PIDS_DIR : string := _ROOT_DIR +:+ "/pid".
Definition _CTRL_DIR : string := _ROOT_DIR +:+ "/ctrl".

(** *** The utility library *)

(** Modelled from the spec: utils.ReadPidFile (lib/utils.py is not under
    src/). The PID file holds the process id as text; an absent file (or
    one that does not hold a number) gives 0, a pid that is never live. *)
Definition read_pid_file (pidfile : string) (o : os_state) : Z :=
  match files o !! pidfile with
  | None => 0
  | Some f =>
      match int (f_data f) with
      | Ok pid => pid
      | Raise _ => 0
      end
  end.

Definition ReadPidFile (pidfile : string) : M Z :=
  o ← get_os; mret (read_pid_file pidfile o).

(** Modelled from the spec: utils.IsProcessAlive (lib/utils.py is not
    under src/), the OS-level liveness check of a pid. *)
Definition process_alive (pid : Z) (o : os_state) : bool :=
  (0 <? pid)%Z && bool_decide (is_Some (procs o !! pid)).

Definition IsProcessAlive (pid : Z) : M bool :=
  o ← get_os; mret (process_alive pid o).

(** Modelled from the spec: utils.RemoveFile (lib/utils.py is not under
    src/): deletes the file, no error if it is already absent. *)
Definition RemoveFile (path : string) : M unit :=
  emit (EvRemoveFile path)
       (fun o => {| files := delete path (files o); procs := procs o |}).

(** Modelled from the spec: utils.KillProcess (lib/utils.py is not under
    src/): terminates the process directly, by the host's kill policy. *)
Definition KillProcess (pid : Z) : M unit :=
  emit (EvKillProcess pid) (kill_process pid).

(** Modelled from the spec: utils.RunCmd (lib/utils.py is not under src/):
    runs the command synchronously and reports how it went. *)
Definition RunCmd (cmd : command) : M RunResult := fun w =>
  let '(r, o) := run_cmd cmd (os w) in
  (Ok r, {| os := o; trace := trace w ++ [EvRunCmd cmd] |}).

(** [os.path.isabs] and [os.path.isfile] on an object that may not be a
    string. *)
Definition os_path_isabs (p : pyval) : result bool :=
  match p with
  | VStr s => Ok (isabs s)
  | _ => Raise (AttributeError "object has no attribute 'startswith'")
  end.

Definition os_path_isfile (p : pyval) (o : os_state) : result bool :=
  match p with
  | VStr s => Ok (bool_decide (is_Some (files o !! s)))
  | _ => Raise (TypeError "coercing to Unicode: need string or buffer")
  end.

(** *** _WriteNetScript *)

Definition net_script (instance : Instance) (nic : NIC) : string :=
  "#!/bin/sh" +:+ nl +:+
  "# this is autogenerated by Ganeti, please do not edit" +:+ nl +:+ "#" +:+ nl +:+
  "export INSTANCE=" +:+ name instance +:+ nl +:+
  "export MAC=" +:+ mac nic +:+ nl +:+
  "export IP=" +:+ default "None" (ip nic) +:+ nl +:+
  "export BRIDGE=" +:+ bridge nic +:+ nl +:+
  "export INTERFACE=$1" +:+ nl +:+
  "if [ -x /etc/ganeti/kvm-vif-bridge ]; then" +:+ nl +:+
  "  # Execute the user-specific vif file" +:+ nl +:+
  "  /etc/ganeti/kvm-vif-bridge" +:+ nl +:+
  "else" +:+ nl +:+
  "  # Connect the interface to the bridge" +:+ nl +:+
  "  /sbin/ifconfig $INTERFACE 0.0.0.0 up" +:+ nl +:+
  "  /usr/sbin/brctl addif $BRIDGE $INTERFACE" +:+ nl +:+
  "fi" +:+ nl +:+ nl.

(** [tempfile.mkstemp()]: a new file, readable and writable by its owner. *)
Definition tempfile_mkstemp : M string := fun w =>
  match mkstemp (os w) with
  | None => (Raise (OSError "mkstemp"), w)
  | Some path =>
      (Ok path,
       {| os := {| files := <[path := File "" 384]> (files (os w));
                   procs := procs (os w) |};
          trace := trace w ++ [EvCreateFile path] |})
  end.

(** [tmpfile.write(data); tmpfile.close()] on the file just made. *)
Definition write_file (path data : string) : M unit := fun w =>
  (Ok tt,
   {| os := {| files := alter (fun f => File data (f_mode f)) path (files (os w));
               procs := procs (os w) |};
      trace := trace w |}).

Definition os_chmod (path : string) (mode : Z) : M unit := fun w =>
  (Ok tt,
   {| os := {| files := alter (fun f => File (f_data f) mode) path (files (os w));
               procs := procs (os w) |};
      trace := trace w |}).

Definition _WriteNetScript (instance : Instance) (seq : Z) (nic : NIC) : M string :=
  let script := net_script instance nic in
  tmpfile_name ← tempfile_mkstemp;
  write_file tmpfile_name script;;
  os_chmod tmpfile_name 493;;
  mret tmpfile_name.

(** *** GetInstanceInfo *)

(** The [while arg_list:] loop: each argument is popped; after [-m] or
    [-smp] the next one is popped too and kept as it is. *)
Fixpoint scan_args (arg_list : list string) (memory vcpus : pyval)
  : result (pyval * pyval) :=
  match arg_list with
  | [] => Ok (memory, vcpus)
  | arg :: arg_list =>
      if String.eqb arg "-m" then
        match arg_list with
        | [] => Raise (IndexError "pop from empty list")
        | v :: arg_list => scan_args arg_list (VStr v) vcpus
        end
      else if String.eqb arg "-smp" then
        match arg_list with
        | [] => Raise (IndexError "pop from empty list")
        | v :: arg_list => scan_args arg_list memory (VStr v)
        end
      else scan_args arg_list memory vcpus
  end.

Definition GetInstanceInfo (instance_name : string) : M (option instance_info) :=
  let pidfile := _PIDS_DIR +:+ "/" +:+ instance_name in
  pid ← ReadPidFile pidfile;
  alive ← IsProcessAlive pid;
  if negb alive then mret None
  else
    o ← get_os;
    match procs o !! pid with
    | None => raise_HypervisorError "Failed to list instance %s: %s"
                [instance_name; strerror "/proc/<pid>/cmdline"]
    | Some (CmdlineError err) =>
        raise_HypervisorError "Failed to list instance %s: %s" [instance_name; err]
    | Some (Cmdline cmdline) =>
        let memory := VInt 0 in
        let vcpus := VInt 0 in
        let stat := "---b-" in
        let times := "0" in
        let arg_list := split NUL cmdline in
        '(memory, vcpus) ← lift (scan_args arg_list memory vcpus);
        mret (Some (instance_name, pid, memory, vcpus, stat, times))
    end.

(** *** StartInstance *)

(** The loop over [instance.nics]: a script per NIC, then the two [-net]
    options of the NIC. *)
Fixpoint nic_loop (instance : Instance) (nics : list NIC) (nic_seq : Z)
    (kvm_cmd : list pyval) (temp_files : list string)
  : M (list pyval * list string) :=
  match nics with
  | [] => mret (kvm_cmd, temp_files)
  | nic :: nics =>
      script ← _WriteNetScript instance nic_seq nic;
      let nic_val := "nic,macaddr=" +:+ mac nic +:+ ",model=virtio" in
      let kvm_cmd := kvm_cmd ++ [VStr "-net"; VStr nic_val] in
      let kvm_cmd := kvm_cmd ++ [VStr "-net"; VStr ("tap,script=" +:+ script)] in
      let temp_files := temp_files ++ [script] in
      let nic_seq := (nic_seq + 1)%Z in
      nic_loop instance nics nic_seq kvm_cmd temp_files
  end.

(** The loop over [block_devices], with its [boot_drive] flag. *)
Fixpoint drive_loop (block_devices : list (Disk * BlockDev)) (boot_drive : bool)
    (kvm_cmd : list pyval) : list pyval :=
  match block_devices with
  | [] => kvm_cmd
  | (cfdev, rldev) :: block_devices =>
      let '(boot_val, boot_drive) :=
        if boot_drive then (",boot=on", false) else ("", boot_drive) in
      let if_val := ",if=virtio" in
      let drive_val :=
        "file=" +:+ dev_path rldev +:+ ",format=raw" +:+ if_val +:+ boot_val in
      let kvm_cmd := kvm_cmd ++ [VStr "-drive"; VStr drive_val] in
      drive_loop block_devices boot_drive kvm_cmd
  end.

(** Lines 182 to 240: the command line of the hypervisor, and the scripts
    written on the way. *)
Definition build_kvm_cmd (instance : Instance)
    (block_devices : list (Disk * BlockDev)) (pidfile : string)
    (temp_files : list string) : M (list pyval * list string) :=
  let kvm := KVM_PATH in
  let kvm_cmd := [VStr kvm] in
  memory ← lift (getitem (beparams instance) BE_MEMORY);
  let kvm_cmd := kvm_cmd ++ [VStr "-m"; memory] in
  vcpus ← lift (getitem (beparams instance) BE_VCPUS);
  let kvm_cmd := kvm_cmd ++ [VStr "-smp"; vcpus] in
  let kvm_cmd := kvm_cmd ++ [VStr "-pidfile"; VStr pidfile] in
  let kvm_cmd := kvm_cmd ++ [VStr "-name"; VStr (name instance)] in
  let kvm_cmd := kvm_cmd ++ [VStr "-daemonize"] in
  acpi ← lift (getitem (hvparams instance) HV_ACPI);
  let kvm_cmd := if negb (truthy acpi) then kvm_cmd ++ [VStr "-no-acpi"] else kvm_cmd in
  '(kvm_cmd, temp_files) ←
    match nics instance with
    | [] => mret (kvm_cmd ++ [VStr "-net"; VStr "none"], temp_files)
    | _ => nic_loop instance (nics instance) 0 kvm_cmd temp_files
    end;
  let kvm_cmd := drive_loop block_devices true kvm_cmd in
  kernel ← lift (getitem (hvparams instance) HV_KERNEL_PATH);
  let kvm_cmd := kvm_cmd ++ [VStr "-kernel"; kernel] in
  initrd_path ← lift (getitem (hvparams instance) HV_INITRD_PATH);
  let kvm_cmd :=
    if truthy initrd_path then kvm_cmd ++ [VStr "-initrd"; initrd_path] else kvm_cmd in
  let kvm_cmd := kvm_cmd ++ [VStr "-append"; VStr "console=ttyS0,38400 root=/dev/vda"] in
  let kvm_cmd := kvm_cmd ++ [VStr "-nographic"] in
  let base_control := _CTRL_DIR +:+ "/" +:+ name instance in
  let monitor_dev := "unix:" +:+ base_control +:+ ".monitor,server,nowait" in
  let kvm_cmd := kvm_cmd ++ [VStr "-monitor"; VStr monitor_dev] in
  let serial_dev := "unix:" +:+ base_control +:+ ".serial,server,nowait" in
  let kvm_cmd := kvm_cmd ++ [VStr "-serial"; VStr serial_dev] in
  mret (kvm_cmd, temp_files).

(** [for file in temp_files: utils.RemoveFile(file)] *)
Fixpoint remove_files (temp_files : list string) : M unit :=
  match temp_files with
  | [] => mret tt
  | file :: temp_files => RemoveFile file;; remove_files temp_files
  end.

Definition StartInstance (instance : Instance)
    (block_devices : list (Disk * BlockDev)) (extra_args : pyval) : M unit :=
  let temp_files : list string := [] in
  let pidfile := _PIDS_DIR +:+ "/" +:+ name instance in
  pid ← ReadPidFile pidfile;
  alive ← IsProcessAlive pid;
  if (alive : bool) then
    raise_HypervisorError "Failed to start instance %s: %s"
      [name instance; "already running"]
  else
    '(kvm_cmd, temp_files) ← build_kvm_cmd instance block_devices pidfile temp_files;
    result ← RunCmd (Argv kvm_cmd);
    if failed result then
      raise_HypervisorError "Failed to start instance %s: %s (%s)"
        [name instance; fail_reason result; output result]
    else
      pid ← ReadPidFile pidfile;
      alive ← IsProcessAlive pid;
      if negb alive then
        raise_HypervisorError "Failed to start instance %s: %s" [name instance]
      else
        remove_files temp_files.

(** *** StopInstance *)

Definition StopInstance (instance : Instance) (force : bool) : M unit :=
  let pid_file := _PIDS_DIR +:+ "/" +:+ name instance in
  pid ← ReadPidFile pid_file;
  alive ← (if (0 <? pid)%Z then IsProcessAlive pid else mret false);
  (if (alive : bool) then
     direct ← (if force then mret true
               else acpi ← lift (getitem (hvparams instance) HV_ACPI);
                    mret (negb (truthy acpi)));
     if (direct : bool) then KillProcess pid
     else
       let monitor_socket := _CTRL_DIR +:+ "/" +:+ name instance +:+ ".monitor" in
       let socat := "socat -u STDIN UNIX-CONNECT:" +:+ monitor_socket in
       let command := "echo 'system_powerdown' | " +:+ socat in
       result ← RunCmd (Shell command);
       if failed result then
         raise_HypervisorError "Failed to stop instance %s: %s"
           [name instance; fail_reason result]
       else mret tt
   else mret tt);;
  alive ← IsProcessAlive pid;
  if negb alive then RemoveFile pid_file else mret tt.

(** *** RebootInstance *)

(** A call of [StartInstance] with its positional parameters bound from
    the arguments given; the method has no default values, so a parameter
    left unbound ([None] here) makes the call itself raise. [given] counts
    the arguments, [self] included. *)
Definition call_StartInstance (given : string) (instance : option Instance)
    (block_devices : option (list (Disk * BlockDev))) (extra_args : option pyval)
  : M unit :=
  match instance, block_devices, extra_args with
  | Some i, Some b, Some e => StartInstance i b e
  | _, _, _ =>
      raise (TypeError ("StartInstance() takes exactly 4 arguments (" +:+ given +:+ " given)"))
  end.

Definition RebootInstance (instance : Instance) : M unit :=
  StopInstance instance false;;
  call_StartInstance "2" (Some instance) None None.

(** *** GetNodeInfo *)

(** The body of the loop over the lines of [/proc/meminfo]. *)
Definition meminfo_line (line : string) (result : gmap string Z) (sum_free : Z)
  : Py.result (gmap string Z * Z) :=
  let splitfields := split1 ":" line in
  match splitfields with
  | f0 :: f1 :: _ =>
      let key := strip f0 in
      let val := strip f1 in
      if String.eqb key "MemTotal" then
        n ← (first (words val) ≫= int);
        mret (<["memory_total" := (n / 1024)%Z]> result, sum_free)
      else if String.eqb key "MemFree" || String.eqb key "Buffers"
              || String.eqb key "Cached" then
        n ← (first (words val) ≫= int);
        mret (result, (sum_free + n / 1024)%Z)
      else if String.eqb key "Active" then
        n ← (first (words val) ≫= int);
        mret (<["memory_dom0" := (n / 1024)%Z]> result, sum_free)
      else mret (result, sum_free)
  | _ => mret (result, sum_free)
  end.

Fixpoint meminfo_loop (data : list string) (result : gmap string Z) (sum_free : Z)
  : Py.result (gmap string Z * Z) :=
  match data with
  | [] => mret (result, sum_free)
  | line :: data =>
      '(result, sum_free) ← meminfo_line line result sum_free;
      meminfo_loop data result sum_free
  end.

Definition GetNodeInfo : M (gmap string Z) :=
  o ← get_os;
  match files o !! "/proc/meminfo" with
  | None => raise_HypervisorError "Failed to list node info: %s" [strerror "/proc/meminfo"]
  | Some fh =>
      let data := readlines (f_data fh) in
      let result : gmap string Z := ∅ in
      let sum_free := 0%Z in
      '(result, sum_free) ← lift (meminfo_loop data result sum_free);
      let result := <["memory_free" := sum_free]> result in
      match files o !! "/proc/cpuinfo" with
      | None => raise_HypervisorError "Failed to list node info: %s" [strerror "/proc/cpuinfo"]
      | Some fh =>
          let cpu_total := count_processors (f_data fh) in
          let result := <["cpu_total" := cpu_total]> result in
          mret result
      end
  end.

(** *** CheckParameterSyntax and ValidateParameters *)

Definition CheckParameterSyntax (hvparams : gmap string pyval) : result unit :=
  base_CheckParameterSyntax hvparams;;
  kernel ← getitem hvparams HV_KERNEL_PATH;
  if negb (truthy kernel) then
    Raise (HypervisorError "Need a kernel for the instance")
  else
    kernel ← getitem hvparams HV_KERNEL_PATH;
    kernel_abs ← os_path_isabs kernel;
    if negb kernel_abs then
      Raise (HypervisorError "The kernel path must an absolute path")
    else
      initrd ← getitem hvparams HV_INITRD_PATH;
      if truthy initrd then
        initrd ← getitem hvparams HV_INITRD_PATH;
        initrd_abs ← os_path_isabs initrd;
        if negb initrd_abs then
          Raise (HypervisorError "The initrd path must an absolute path, if defined")
        else Ok tt
      else Ok tt.

Definition ValidateParameters (hvparams : gmap string pyval) : M unit :=
  o ← get_os;
  lift (base_ValidateParameters hvparams o);;
  kernel_path ← lift (getitem hvparams HV_KERNEL_PATH);
  kernel_isfile ← lift (os_path_isfile kernel_path o);
  if negb kernel_isfile then
    raise_HypervisorError "Instance kernel '%s' not found or not a file" [str kernel_path]
  else
    initrd_path ← lift (getitem hvparams HV_INITRD_PATH);
    if truthy initrd_path then
      initrd_isfile ← lift (os_path_isfile initrd_path o);
      if negb initrd_isfile then
        raise_HypervisorError "Instance initrd '%s' not found or not a file"
          [str initrd_path]
      else mret tt
    else mret tt.

(** *** Derived notions used to state the properties *)

(** The PID file of an instance. *)
Definition pid_file_of (instance_name : string) : string :=
  _PIDS_DIR +:+ "/" +:+ instance_name.

(** [utils.IsProcessAlive(utils.ReadPidFile(pidfile))], the test the
    driver makes to know whether an instance runs. *)
Definition is_running (instance_name : string) (o : os_state) : bool :=
  process_alive (read_pid_file (pid_file_of instance_name) o) o.

(** The shell line [StopInstance] runs to ask the guest to power down. *)
Definition powerdown_command (instance : Instance) : string :=
  "echo 'system_powerdown' | socat -u STDIN UNIX-CONNECT:" +:+
  _CTRL_DIR +:+ "/" +:+ name instance +:+ ".monitor".

End Driver.

(** What a method did to the host when run from [w]: the events it added. *)
Definition effects {A} (m : M A) (w : world) : list event :=
  drop (length (trace w)) (trace (snd (m w))).

(** ** The launch specification, in the words of the design

    Section 4.3 of the design describes the hypervisor invocation: sizing,
    PID file, name, daemonize, the ACPI flag, the network configuration
    (an explicit "no networking" directive, or a pair of directives per
    NIC in list order), a disk directive per block device with the first
    one bootable, kernel and optional initrd, the fixed kernel command
    line, no graphics, and the two control channels. *)

Section LaunchSpec.
Context `{!Constants}.

Definition nic_directives (nic : NIC) (script : string) : list pyval :=
  [VStr "-net"; VStr ("nic,macaddr=" +:+ mac nic +:+ ",model=virtio");
   VStr "-net"; VStr ("tap,script=" +:+ script)].

Definition net_directives (nics : list NIC) (scripts : list string) : list pyval :=
  match nics with
  | [] => [VStr "-net"; VStr "none"]
  | _ => concat (zip_with nic_directives nics scripts)
  end.

Definition disk_directive (index : nat) (disk : Disk * BlockDev) : list pyval :=
  [VStr "-drive";
   VStr ("file=" +:+ dev_path (snd disk) +:+ ",format=raw,if=virtio" +:+
         match index with O => ",boot=on" | S _ => "" end)].

Definition disk_directives (block_devices : list (Disk * BlockDev)) : list pyval :=
  concat (imap disk_directive block_devices).

Definition launch_spec (instance : Instance) (block_devices : list (Disk * BlockDev))
    (scripts : list string) (memory vcpus acpi kernel initrd : pyval) : list pyval :=
  [VStr KVM_PATH; VStr "-m"; memory; VStr "-smp"; vcpus;
   VStr "-pidfile"; VStr (pid_file_of (name instance));
   VStr "-name"; VStr (name instance); VStr "-daemonize"] ++
  (if truthy acpi then [] else [VStr "-no-acpi"]) ++
  net_directives (nics instance) scripts ++
  disk_directives block_devices ++
  [VStr "-kernel"; kernel] ++
  (if truthy initrd then [VStr "-initrd"; initrd] else []) ++
  [VStr "-append"; VStr "console=ttyS0,38400 root=/dev/vda"; VStr "-nographic";
   VStr "-monitor";
   VStr ("unix:" +:+ (_CTRL_DIR +:+ "/" +:+ name instance) +:+ ".monitor,server,nowait");
   VStr "-serial";
   VStr ("unix:" +:+ (_CTRL_DIR +:+ "/" +:+ name instance) +:+ ".serial,server,nowait")].

End LaunchSpec.

(** ** Host accounting, in the words of the design

    Section 4.5: each counter of [/proc/meminfo] is a line [Key: n kB];
    a memory figure is the counter in whole megabytes. *)

(** Key and value text of a line that has a colon. *)
Definition counter_of (line : string) : option (string * string) :=
  match split1 ":" line with
  | f0 :: f1 :: _ => Some (strip f0, strip f1)
  | _ => None
  end.

(** The whole megabytes of a counter whose value text is [val]. *)
Definition megabytes (val : string) : option Z :=
  match first (words val) ≫= int with
  | Ok n => Some (n / 1024)%Z
  | Raise _ => None
  end.

(** The megabyte figures of the lines whose key satisfies [want], in file
    order. *)
Definition figures (want : string -> bool) (lines : list string) : list Z :=
  omap (fun line =>
          match counter_of line with
          | Some (key, val) => if want key then megabytes val else None
          | None => None
          end) lines.

Definition is_free_key (key : string) : bool :=
  String.eqb key "MemFree" || String.eqb key "Buffers" || String.eqb key "Cached".

Definition is_total_key (key : string) : bool := String.eqb key "MemTotal".

Definition is_active_key (key : string) : bool := String.eqb key "Active".

Definition sum_Z (l : list Z) : Z := foldr Z.add 0%Z l.

(** The figure of the last line whose key satisfies [want], or [before]
    when there is no such line. *)
Definition latest (want : string -> bool) (lines : list string) (before : option Z)
  : option Z :=
  match last (figures want lines) with
  | Some n => Some n
  | None => before
  end.

(** ** Sizing flags on a command line *)

(** [value] is the argument right after an occurrence of [flag]. *)
Definition follows (flag value : string) (args : list string) : Prop :=
  exists before after, args = before ++ flag :: value :: after.

(** ** Notions used to state the properties *)

(** A script that exists on the host: a file with the executable mode the
    driver gives it. *)
Definition script_present (o : os_state) (path : string) : Prop :=
  exists f, files o !! path = Some f /\ f_mode f = 493%Z.

(** The files of a host after the wiring script of each NIC of [nics] has
    been written, in NIC order, under the path of [scripts] at the same
    position: the script text of that NIC, executable. *)
Definition with_scripts (instance : Instance) (nics : list NIC)
    (scripts : list string) (m : gmap string file) : gmap string file :=
  foldl (fun m ns => <[snd ns := File (net_script instance (fst ns)) 493]> m) m
        (zip nics scripts).

(** The script at [path] is the wiring script of [nic]: the text
    [_WriteNetScript] generates for it, executable. *)
Definition wires (instance : Instance) (o : os_state) (nic : NIC) (path : string)
  : Prop :=
  files o !! path = Some (File (net_script instance nic) 493).

(** The host after the removal of the files [paths]. *)
Definition without_files (paths : list string) (w : world) : world :=
  {| os := {| files := foldl (fun m p => delete p m) (files (os w)) paths;
              procs := procs (os w) |};
     trace := trace w ++ map EvRemoveFile paths |}.

(** The message of the launch failure. *)
Definition launch_failure (instance : Instance) (res : RunResult) : exn :=
  HypervisorError ("Failed to start instance " +:+ name instance +:+ ": " +:+
                   fail_reason res +:+ " (" +:+ output res +:+ ")").

(** A parameter that holds a path: a string, or [None] when not given. *)
Definition is_path (v : pyval) : Prop := v = VNone \/ exists s, v = VStr s.

(** The path parameter [v] is an absolute path. *)
Definition absolute (v : pyval) : bool :=
  match v with
  | VStr s => isabs s
  | _ => false
  end.

(** [arg] is one of the two sizing flags [GetInstanceInfo] looks for. *)
Definition sizing_flag (arg : string) : Prop := arg = "-m" \/ arg = "-smp".

(** The arguments [before] are whole groups for the scan of
    [GetInstanceInfo]: it reads them to the end without stopping between a
    sizing flag and its value, so that the argument after them is read in
    flag position. *)
Definition whole_groups (before : list string) : Prop :=
  exists memory vcpus, scan_args before (VInt 0) (VInt 0) = Ok (memory, vcpus).

(** ** A concrete node

    The constants as Ganeti defines them, and a host on which the driver
    can be run: launching [kvm] writes the PID file and (when the daemon
    survives) adds the process; the monitor socket accepts the power-down
    command or not. *)

Module Node.

#[local] Instance constants : Constants := {|
  RUN_GANETI_DIR := "/var/run/ganeti";
  KVM_PATH := "/usr/bin/kvm";
  HV_KERNEL_PATH := "kernel_path";
  HV_INITRD_PATH := "initrd_path";
  HV_ACPI := "acpi";
  BE_MEMORY := "memory";
  BE_VCPUS := "vcpus"
|}.

Definition next_pid (o : os_state) : Z :=
  (1 + map_fold (fun pid _ acc => Z.max pid acc) 4000 (procs o))%Z.

Fixpoint pidfile_arg (args : list pyval) : option string :=
  match args with
  | VStr "-pidfile" :: VStr p :: _ => Some p
  | _ :: rest => pidfile_arg rest
  | [] => None
  end.

(** The argument vector as [/proc/<pid>/cmdline] shows it: every argument
    followed by a NUL byte. *)
Definition proc_cmdline (args : list string) : string :=
  foldr (fun a r => a +:+ String NUL r) "" args.

Definition kvm_launch (daemon_lives : bool) (args : list pyval) (o : os_state)
  : os_state :=
  match pidfile_arg args with
  | None => o
  | Some p =>
      let pid := next_pid o in
      {| files := <[p := File (str (VInt pid) +:+ nl) 420]> (files o);
         procs := if daemon_lives
                  then <[pid := Cmdline (proc_cmdline (str <$> args))]> (procs o)
                  else procs o |}
  end.

Definition is_processor_line (l : string) : bool :=
  String.prefix "processor" l.

Definition host (launch_ok daemon_lives monitor_ok : bool) : Host := {|
  run_cmd c o :=
    match c with
    | Argv args =>
        if launch_ok then (mkRunResult false "" "", kvm_launch daemon_lives args o)
        else (mkRunResult true "exited with exit code 1" "kvm: failed", o)
    | Shell _ =>
        if monitor_ok then (mkRunResult false "" "", o)
        else (mkRunResult true "exited with exit code 1" "", o)
    end;
  mkstemp o := Some ("/tmp/tmp" +:+ str (VInt (Z.of_nat (size (files o)))));
  kill_process pid o := {| files := files o; procs := delete pid (procs o) |};
  count_processors s :=
    Z.of_nat (length (filter (fun l => is_processor_line l = true) (split LF s)));
  base_CheckParameterSyntax _ := Ok tt;
  base_ValidateParameters _ _ := Ok tt
|}.

Definition nic0 : NIC := mkNIC "aa:00:00:00:00:01" (Some "192.0.2.10") "br0".
Definition nic1 : NIC := mkNIC "aa:00:00:00:00:02" None "br1".

Definition params (kernel initrd : string) (acpi : bool) : gmap string pyval :=
  <["kernel_path" := VStr kernel]>
    (<["initrd_path" := VStr initrd]> (<["acpi" := VBool acpi]> ∅)).

Definition sizing : gmap string pyval :=
  <["memory" := VInt 512]> (<["vcpus" := VInt 2]> ∅).

(** The instance of the scenario: two NICs, and two block devices below. *)
Definition web1 : Instance :=
  mkInstance "web1" sizing (params "/boot/vmlinuz-2.6-kvmU" "" true) [nic0; nic1].

Definition disks : list (Disk * BlockDev) :=
  [(mkDisk "sda", mkBlockDev "/dev/xenvg/web1-sda");
   (mkDisk "sdb", mkBlockDev "/dev/xenvg/web1-sdb")].

(** The same instance with a relative kernel path, and with none. *)
Definition web1_relative_kernel : Instance :=
  mkInstance "web1" sizing (params "vmlinuz" "" true) [nic0; nic1].

Definition web1_no_kernel : Instance :=
  mkInstance "web1" sizing (params "" "" true) [nic0; nic1].

(** The command line of [web1], with the kernel path [kernel] and the two
    scripts at [/tmp/tmp2] and [/tmp/tmp3]. *)
Definition web1_cmd (kernel : string) : list pyval :=
  [VStr "/usr/bin/kvm"; VStr "-m"; VInt 512; VStr "-smp"; VInt 2;
   VStr "-pidfile"; VStr "/var/run/ganeti/kvm-hypervisor/pid/web1";
   VStr "-name"; VStr "web1"; VStr "-daemonize";
   VStr "-net"; VStr "nic,macaddr=aa:00:00:00:00:01,model=virtio";
   VStr "-net"; VStr "tap,script=/tmp/tmp2";
   VStr "-net"; VStr "nic,macaddr=aa:00:00:00:00:02,model=virtio";
   VStr "-net"; VStr "tap,script=/tmp/tmp3";
   VStr "-drive"; VStr "file=/dev/xenvg/web1-sda,format=raw,if=virtio,boot=on";
   VStr "-drive"; VStr "file=/dev/xenvg/web1-sdb,format=raw,if=virtio";
   VStr "-kernel"; VStr kernel;
   VStr "-append"; VStr "console=ttyS0,38400 root=/dev/vda";
   VStr "-nographic";
   VStr "-monitor";
   VStr "unix:/var/run/ganeti/kvm-hypervisor/ctrl/web1.monitor,server,nowait";
   VStr "-serial";
   VStr "unix:/var/run/ganeti/kvm-hypervisor/ctrl/web1.serial,server,nowait"].

(** The three hosts of the scenarios: one where everything works, one
    where the launcher reports success but no hypervisor process is left,
    and one where the monitor socket cannot be reached. *)
Definition good_host : Host := host true true true.
Definition dying_daemon_host : Host := host true false true.
Definition deaf_monitor_host : Host := host true true false.

Definition meminfo : string :=
  "MemTotal:      4194304 kB" +:+ nl +:+
  "MemFree:        524288 kB" +:+ nl +:+
  "Buffers:        262144 kB" +:+ nl +:+
  "Cached:         262144 kB" +:+ nl +:+
  "SwapCached:          0 kB" +:+ nl +:+
  "Active:        1048576 kB" +:+ nl.

Definition cpuinfo : string :=
  "processor" +:+ String "009" ": 0" +:+ nl +:+
  "model name" +:+ String "009" ": QEMU Virtual CPU" +:+ nl +:+ nl +:+
  "processor" +:+ String "009" ": 1" +:+ nl +:+
  "model name" +:+ String "009" ": QEMU Virtual CPU" +:+ nl.

(** A freshly booted node: the accounting files of [/proc], no instance. *)
Definition fresh_os : os_state :=
  {| files := <["/proc/meminfo" := File meminfo 292]>
                (<["/proc/cpuinfo" := File cpuinfo 292]> ∅);
     procs := ∅ |}.

Definition fresh : world := {| os := fresh_os; trace := [] |}.

(** The node with [web1] running as process 4242. *)
Definition running_cmdline : string :=
  proc_cmdline ["/usr/bin/kvm"; "-m"; "512"; "-smp"; "2"; "-name"; "web1"; "-daemonize"].

Definition running_os : os_state :=
  {| files := <["/var/run/ganeti/kvm-hypervisor/pid/web1" := File ("4242" +:+ nl) 420]>
                (files fresh_os);
     procs := <[4242%Z := Cmdline running_cmdline]> ∅ |}.

Definition running : world := {| os := running_os; trace := [] |}.

End Node.

(** * The rest of the driver *)

(** ** Listing a directory *)

(** [s] without its prefix [p], when it starts with it. *)
Fixpoint strip_prefix (p s : string) : option string :=
  match p with
  | EmptyString => Some s
  | String c p' =>
      match s with
      | EmptyString => None
      | String d s' => if Ascii.eqb c d then strip_prefix p' s' else None
      end
  end.

(** [c in s] *)
Fixpoint has_char (c : ascii) (s : string) : bool :=
  match s with
  | EmptyString => false
  | String d s' => Ascii.eqb c d || has_char c s'
  end.

(** A name a directory entry can have: not empty, no slash. *)
Definition entry_like (n : string) : bool :=
  negb (String.eqb n "") && negb (has_char "/" n).

(** The name of the file at [path] when it lies directly in [dir]. *)
Definition entry_name (dir path : string) : option string :=
  match strip_prefix (dir +:+ "/") path with
  | Some n => if entry_like n then Some n else None
  | None => None
  end.

(** [os.listdir(dir)] on the file store of the host: the names of the
    files directly in [dir], in the order of the store (the OS promises no
    order). *)
Definition os_listdir (dir : string) (o : os_state) : list string :=
  omap (fun entry => entry_name dir (fst entry)) (map_to_list (files o)).

Section DriverRest.
Context `{!Constants}.

(** ** ListInstances *)

(** The loop over the entries of the PID directory. *)
Fixpoint list_loop (names : list string) (result : list string) : M (list string) :=
  match names with
  | [] => mret result
  | name :: names =>
      let file := _PIDS_DIR +:+ "/" +:+ name in
      pid ← ReadPidFile file;
      alive ← IsProcessAlive pid;
      let result := if (alive : bool) then result ++ [name] else result in
      list_loop names result
  end.

Definition ListInstances : M (list string) :=
  let result := [] in
  o ← get_os;
  list_loop (os_listdir _PIDS_DIR o) result.

(** ** GetAllInstancesInfo *)

Fixpoint info_loop (names : list string) (data : list (option instance_info))
  : M (list (option instance_info)) :=
  match names with
  | [] => mret data
  | name :: names =>
      let file := _PIDS_DIR +:+ "/" +:+ name in
      pid ← ReadPidFile file;
      alive ← IsProcessAlive pid;
      if (alive : bool) then
        info ← GetInstanceInfo name;
        info_loop names (data ++ [info])
      else info_loop names data
  end.

Definition GetAllInstancesInfo : M (list (option instance_info)) :=
  let data := [] in
  o ← get_os;
  info_loop (os_listdir _PIDS_DIR o) data.

(** ** GetShellCommandForConsole and Verify *)

Definition GetShellCommandForConsole (instance : Instance) : string :=
  "echo Console not available for the kvm hypervisor yet".

(** [Verify] returns a message, or nothing ([None]) when the binary is
    there. *)
Definition Verify : M (option string) :=
  o ← get_os;
  if negb (bool_decide (is_Some (files o !! KVM_PATH))) then
    msg ← lift (format "The kvm binary ('%s') does not exist." [KVM_PATH]);
    mret (Some msg)
  else mret None.

(** ** The constructor: the directories of the driver *)

Definition _DIRS : list string := [_ROOT_DIR; _PIDS_DIR; _CTRL_DIR].

(** The loop of [__init__] over [_DIRS], on the set of paths that exist.
    [can_mkdir dir existing] tells whether [os.mkdir(dir)] succeeds on a
    host where the paths [existing] exist (it does not when the parent is
    missing or cannot be written); the list collects the directories
    made, in order. *)
Fixpoint make_dirs (can_mkdir : string -> gset string -> bool) (dirs : list string)
    (existing : gset string) (made : list string)
  : result unit * gset string * list string :=
  match dirs with
  | [] => (Ok tt, existing, made)
  | dir :: dirs =>
      if negb (bool_decide (dir ∈ existing)) then
        if can_mkdir dir existing then
          make_dirs can_mkdir dirs ({[dir]} ∪ existing) (made ++ [dir])
        else (Raise (OSError ("mkdir: " +:+ dir)), existing, made)
      else make_dirs can_mkdir dirs existing made
  end.

Definition init_dirs (can_mkdir : string -> gset string -> bool)
    (existing : gset string) : result unit * gset string * list string :=
  make_dirs can_mkdir _DIRS existing [].

End DriverRest.

(** ** Notions used to state the further properties *)

(** The host once the file at [path] is removed. *)
Definition remove_file_state (path : string) (o : os_state) : os_state :=
  {| files := delete path (files o); procs := procs o |}.

(** The world once the driver has removed the file at [path]. *)
Definition after_remove (path : string) (w : world) : world :=
  {| os := remove_file_state path (os w); trace := trace w ++ [EvRemoveFile path] |}.

(** The world once the driver has killed [pid]. *)
Definition after_kill `{!Host} (pid : Z) (w : world) : world :=
  {| os := kill_process pid (os w); trace := trace w ++ [EvKillProcess pid] |}.

(** The world once the driver has run [cmd], which left the host as [o]. *)
Definition after_run (cmd : command) (o : os_state) (w : world) : world :=
  {| os := o; trace := trace w ++ [EvRunCmd cmd] |}.

(** The results of [f] over [l] in order, up to the first exception. *)
Fixpoint collect {A B} (f : A -> result B) (l : list A) : result (list B) :=
  match l with
  | [] => Ok []
  | x :: l =>
      match f x with
      | Raise e => Raise e
      | Ok y =>
          match collect f l with
          | Ok k => Ok (y :: k)
          | Raise e => Raise e
          end
      end
  end.

(** ** More scenes on the concrete node *)

Module Scenes.

(** web1 with ACPI disabled, without the ACPI entry, and without the
    kernel entry. *)
Definition web1_no_acpi : Instance :=
  mkInstance "web1" Node.sizing (Node.params "/boot/vmlinuz-2.6-kvmU" "" false)
    [Node.nic0; Node.nic1].

Definition web1_acpi_unset : Instance :=
  mkInstance "web1" Node.sizing
    (<["kernel_path" := VStr "/boot/vmlinuz-2.6-kvmU"]> (<["initrd_path" := VStr ""]> ∅))
    [Node.nic0; Node.nic1].

Definition web1_kernel_unset : Instance :=
  mkInstance "web1" Node.sizing
    (<["initrd_path" := VStr ""]> (<["acpi" := VBool true]> ∅))
    [Node.nic0; Node.nic1].

Definition web1_unsized : Instance :=
  mkInstance "web1" ∅ (Node.params "/boot/vmlinuz-2.6-kvmU" "" true)
    [Node.nic0; Node.nic1].

(** A host whose launcher fails, and a host where no temporary file can
    be made. *)
Definition failing_launcher_host : Host := Node.host false true true.

Definition full_tmp_host : Host := {|
  run_cmd := @run_cmd Node.good_host;
  mkstemp := fun _ => None;
  kill_process := @kill_process Node.good_host;
  count_processors := @count_processors Node.good_host;
  base_CheckParameterSyntax := @base_CheckParameterSyntax Node.good_host;
  base_ValidateParameters := @base_ValidateParameters Node.good_host
|}.

(** The node where web1 runs as process 4242 and its command line cannot
    be read. *)
Definition unreadable : world :=
  {| os := {| files := files Node.running_os;
              procs := <[4242%Z := CmdlineError "[Errno 13] Permission denied"]> ∅ |};
     trace := [] |}.

(** The node where process 4242 has rewritten its command line to end
    with a sizing flag. *)
Definition dangling : world :=
  {| os := {| files := files Node.running_os;
              procs := <[4242%Z := Cmdline ("/usr/bin/kvm" +:+ String NUL "-m")]> ∅ |};
     trace := [] |}.

(** The node with a stale PID file for web1: the file names process 4242,
    and no such process exists. *)
Definition stale : world :=
  {| os := {| files := files Node.running_os; procs := ∅ |}; trace := [] |}.

End Scenes.

(** * Properties of the driver *)

Lemma append_empty_r (s : string) : s +:+ "" = s.
Proof.
  induction s as [|c s IH]; [reflexivity |].
  change (String c (s +:+ "") = String c s). now rewrite IH.
Qed.

Ltac unfold_monad :=
  unfold raise_HypervisorError, ReadPidFile, IsProcessAlive, get_os, raise, lift,
    emit, mbind, mret, M_bind, M_ret, result_bind, result_ret in *.

Section Properties.
Context `{!Constants} `{!Host}.

(** ** Reading the process registry changes nothing *)

Lemma ReadPidFile_run pidfile w :
  ReadPidFile pidfile w = (Ok (read_pid_file pidfile (os w)), w).
Proof. reflexivity. Qed.

Lemma IsProcessAlive_run pid w :
  IsProcessAlive pid w = (Ok (process_alive pid (os w)), w).
Proof. reflexivity. Qed.

Lemma process_alive_positive pid o : process_alive pid o = true -> (0 < pid)%Z.
Proof.
  unfold process_alive. intros Hl. apply andb_true_iff in Hl as [Hp _].
  now apply Z.ltb_lt.
Qed.

(** ** StartInstance on a running instance *)

(** C4. When the PID file of the instance names a live process,
    [StartInstance] raises the "already running" [HypervisorError] and the
    host is exactly as before: no file was created, no command was run, the
    process table and the PID file are untouched. *)
Theorem start_already_running instance block_devices extra_args w :
  is_running (name instance) (os w) = true ->
  StartInstance instance block_devices extra_args w =
    (Raise (HypervisorError
              ("Failed to start instance " +:+ name instance +:+ ": already running")),
     w)
  /\ effects (StartInstance instance block_devices extra_args) w = [].
Proof.
  intros Hrun. unfold is_running, pid_file_of in Hrun.
  assert (Hstart : StartInstance instance block_devices extra_args w =
    (Raise (HypervisorError
              ("Failed to start instance " +:+ name instance +:+ ": already running")),
     w)).
  { unfold StartInstance. unfold_monad. simpl. rewrite Hrun. reflexivity. }
  split; [exact Hstart |].
  unfold effects. rewrite Hstart. simpl. apply drop_all.
Qed.

(** The refusal of [StartInstance] on a running instance, as the other
    proofs use it. *)
Lemma start_refused instance block_devices extra_args w :
  is_running (name instance) (os w) = true ->
  StartInstance instance block_devices extra_args w =
    (Raise (HypervisorError
              ("Failed to start instance " +:+ name instance +:+ ": already running")),
     w)
  /\ effects (StartInstance instance block_devices extra_args) w = [].
Proof.
  intros Hrun. unfold is_running, pid_file_of in Hrun.
  assert (Hstart : StartInstance instance block_devices extra_args w =
    (Raise (HypervisorError
              ("Failed to start instance " +:+ name instance +:+ ": already running")),
     w)).
  { unfold StartInstance. unfold_monad. simpl. rewrite Hrun. reflexivity. }
  split; [exact Hstart |].
  unfold effects. rewrite Hstart. simpl. apply drop_all.
Qed.

(** ** StopInstance when the power-down command cannot be delivered *)

(** C3. On a live instance with ACPI enabled, a non-forced [StopInstance]
    whose monitor command fails raises the "Failed to stop" error with the
    reason of the failure. The only thing the driver did is to run that one
    command: it killed no process and removed no file, and the host is left
    as the failed command left it. *)
Theorem stop_graceful_failure instance w acpi res o' :
  is_running (name instance) (os w) = true ->
  hvparams instance !! HV_ACPI = Some acpi ->
  truthy acpi = true ->
  run_cmd (Shell (powerdown_command instance)) (os w) = (res, o') ->
  failed res = true ->
  StopInstance instance false w =
    (Raise (HypervisorError
              ("Failed to stop instance " +:+ name instance +:+ ": " +:+ fail_reason res)),
     {| os := o'; trace := trace w ++ [EvRunCmd (Shell (powerdown_command instance))] |})
  /\ effects (StopInstance instance false) w =
       [EvRunCmd (Shell (powerdown_command instance))]
  /\ (forall pid, ~ In (EvKillProcess pid) (effects (StopInstance instance false) w))
  /\ (forall path, ~ In (EvRemoveFile path) (effects (StopInstance instance false) w)).
Proof.
  intros Hrun Hacpi Htrue Hcmd Hfail.
  unfold is_running, pid_file_of in Hrun.
  pose proof (process_alive_positive _ _ Hrun) as Hpos.
  apply Z.ltb_lt in Hpos.
  assert (Hstop : StopInstance instance false w =
    (Raise (HypervisorError
              ("Failed to stop instance " +:+ name instance +:+ ": " +:+ fail_reason res)),
     {| os := o'; trace := trace w ++ [EvRunCmd (Shell (powerdown_command instance))] |})).
  { unfold StopInstance, RunCmd, getitem. unfold_monad. simpl.
    rewrite Hpos, Hrun, Hacpi, Htrue. simpl.
    change ("echo 'system_powerdown' | " +:+ "socat -u STDIN UNIX-CONNECT:" +:+
            _CTRL_DIR +:+ "/" +:+ name instance +:+ ".monitor")
      with (powerdown_command instance).
    rewrite Hcmd, Hfail. simpl.
    rewrite append_empty_r. reflexivity. }
  assert (Heff : effects (StopInstance instance false) w =
                 [EvRunCmd (Shell (powerdown_command instance))]).
  { unfold effects. rewrite Hstop. simpl. now rewrite drop_app_length. }
  split; [exact Hstop |]. split; [exact Heff |].
  rewrite Heff. split; intros x [Hx | []]; discriminate Hx.
Qed.

(** ** The build phase of StartInstance *)

Lemma WriteNetScript_run instance seq nic w :
  _WriteNetScript instance seq nic w =
  match mkstemp (os w) with
  | None => (Raise (OSError "mkstemp"), w)
  | Some path =>
      (Ok path,
       {| os := {| files := <[path := File (net_script instance nic) 493]> (files (os w));
                   procs := procs (os w) |};
          trace := trace w ++ [EvCreateFile path] |})
  end.
Proof.
  unfold _WriteNetScript, tempfile_mkstemp, write_file, os_chmod. unfold_monad.
  destruct (mkstemp (os w)) as [path|]; [| reflexivity].
  simpl. do 3 f_equal.
  apply map_eq. intros k. destruct (decide (path = k)) as [->|Hne].
  - now rewrite !lookup_alter_eq, !lookup_insert_eq.
  - now rewrite !lookup_alter_ne, !lookup_insert_ne by assumption.
Qed.

Lemma script_present_insert o path data procs' other :
  script_present o other ->
  script_present {| files := <[path := File data 493]> (files o); procs := procs' |} other.
Proof.
  intros (f & Hf & Hm). unfold script_present. simpl.
  destruct (decide (path = other)) as [->|Hne].
  - rewrite lookup_insert_eq. eauto.
  - rewrite lookup_insert_ne by assumption. eauto.
Qed.

(** Whatever the outcome of the loop over the NICs, all it did was to
    create files. *)
Lemma nic_loop_trace instance nics : forall seq cmd temps w,
  exists created,
    trace (snd (nic_loop instance nics seq cmd temps w)) =
    trace w ++ map EvCreateFile created.
Proof.
  induction nics as [|nic nics IH]; intros seq cmd temps w.
  - exists []. simpl. now rewrite app_nil_r.
  - simpl. unfold mbind, M_bind. rewrite WriteNetScript_run.
    destruct (mkstemp (os w)) as [path|].
    + match goal with |- context [nic_loop instance nics ?s ?c ?t ?w1] =>
        destruct (IH s c t w1) as [created Hc] end.
      exists (path :: created). rewrite Hc. simpl. now rewrite <- app_assoc.
    + exists []. simpl. now rewrite app_nil_r.
Qed.

(** When the loop completes: one script per NIC, in NIC order, each one on
    the host, and the two [-net] options of each NIC appended in order. *)
Lemma nic_loop_ok instance nics : forall seq cmd temps w cmd' temps' w',
  nic_loop instance nics seq cmd temps w = (Ok (cmd', temps'), w') ->
  exists scripts,
    length scripts = length nics
    /\ cmd' = cmd ++ concat (zip_with nic_directives nics scripts)
    /\ temps' = temps ++ scripts
    /\ trace w' = trace w ++ map EvCreateFile scripts
    /\ Forall (script_present (os w')) scripts
    /\ (forall p, script_present (os w) p -> script_present (os w') p)
    /\ procs (os w') = procs (os w).
Proof.
  induction nics as [|nic nics IH]; intros seq cmd temps w cmd' temps' w' Hrun.
  - simpl in Hrun. injection Hrun as <- <- <-.
    exists []. simpl. rewrite !app_nil_r. repeat split; auto.
  - simpl in Hrun. unfold mbind, M_bind in Hrun. rewrite WriteNetScript_run in Hrun.
    destruct (mkstemp (os w)) as [path|]; [| discriminate Hrun].
    apply IH in Hrun as (scripts & Hlen & Hcmd & Htemps & Htrace & Hall & Hkeep & Hprocs).
    exists (path :: scripts). simpl in *.
    split; [now rewrite Hlen |].
    split; [rewrite Hcmd, <- !app_assoc; reflexivity |].
    split; [rewrite Htemps, <- app_assoc; reflexivity |].
    split; [rewrite Htrace, <- app_assoc; reflexivity |].
    split.
    { constructor; [| exact Hall]. apply Hkeep.
      exists (File (net_script instance nic) 493). simpl.
      now rewrite lookup_insert_eq. }
    split; [| exact Hprocs].
    intros p Hp. apply Hkeep. now apply script_present_insert.
Qed.

Lemma drive_loop_rest block_devices : forall cmd (f : nat -> Disk * BlockDev -> list pyval),
  (forall k d, f k d = disk_directive (S k) d) ->
  drive_loop block_devices false cmd = cmd ++ concat (imap f block_devices).
Proof.
  induction block_devices as [|[cfdev rldev] bd IH]; intros cmd f Hf.
  - simpl. now rewrite app_nil_r.
  - simpl. rewrite (IH _ (f ∘ S)) by (intros k d; simpl; now rewrite Hf).
    rewrite Hf, <- app_assoc. reflexivity.
Qed.

(** The loop over the block devices appends one [-drive] option per
    device, and only the first carries [boot=on]. *)
Lemma drive_loop_spec block_devices cmd :
  drive_loop block_devices true cmd = cmd ++ disk_directives block_devices.
Proof.
  unfold disk_directives. destruct block_devices as [|[cfdev rldev] bd].
  - simpl. now rewrite app_nil_r.
  - simpl. rewrite (drive_loop_rest bd _ (disk_directive ∘ S)) by reflexivity.
    rewrite <- app_assoc. reflexivity.
Qed.

(** When the loop completes, the files of the host are those it started
    with and the script of each NIC, written in NIC order. *)
Lemma nic_loop_files instance nics : forall seq cmd temps w cmd' temps' w',
  nic_loop instance nics seq cmd temps w = (Ok (cmd', temps'), w') ->
  exists scripts,
    temps' = temps ++ scripts
    /\ files (os w') = with_scripts instance nics scripts (files (os w)).
Proof.
  induction nics as [|nic nics IH]; intros seq cmd temps w cmd' temps' w' Hrun.
  - simpl in Hrun. injection Hrun as <- <- <-.
    exists []. simpl. now rewrite app_nil_r.
  - simpl in Hrun. unfold mbind, M_bind in Hrun. rewrite WriteNetScript_run in Hrun.
    destruct (mkstemp (os w)) as [path|]; [| discriminate Hrun].
    apply IH in Hrun as (scripts & Htemps & Hfiles).
    exists (path :: scripts). simpl in *.
    split; [rewrite Htemps, <- app_assoc; reflexivity |].
    exact Hfiles.
Qed.

Lemma build_kvm_cmd_files instance block_devices w cmd scripts w' :
  build_kvm_cmd instance block_devices (pid_file_of (name instance)) [] w
    = (Ok (cmd, scripts), w') ->
  files (os w') = with_scripts instance (nics instance) scripts (files (os w)).
Proof.
  intros Hrun. unfold build_kvm_cmd, getitem in Hrun. unfold_monad.
  destruct (beparams instance !! BE_MEMORY) as [memory|]; [| discriminate Hrun].
  destruct (beparams instance !! BE_VCPUS) as [vcpus|]; [| discriminate Hrun].
  destruct (hvparams instance !! HV_ACPI) as [acpi|]; [| discriminate Hrun].
  destruct (nics instance) as [|nic nics'] eqn:Hnics.
  - destruct (hvparams instance !! HV_KERNEL_PATH) as [kernel|]; [| discriminate Hrun].
    destruct (hvparams instance !! HV_INITRD_PATH) as [initrd|]; [| discriminate Hrun].
    injection Hrun as <- <- <-. reflexivity.
  - destruct (nic_loop instance (nic :: nics') 0 _ [] w) as [[[c t]|e] w1] eqn:Hloop;
      [| discriminate Hrun].
    apply nic_loop_files in Hloop as (ss & Htemps & Hfiles).
    destruct (hvparams instance !! HV_KERNEL_PATH) as [kernel|]; [| discriminate Hrun].
    destruct (hvparams instance !! HV_INITRD_PATH) as [initrd|]; [| discriminate Hrun].
    injection Hrun as <- <- <-. simpl in Htemps. subst t. exact Hfiles.
Qed.

(** Writing scripts leaves the files under other paths as they were. *)
Lemma with_scripts_other instance nics : forall scripts m p,
  p ∉ scripts -> with_scripts instance nics scripts m !! p = m !! p.
Proof.
  unfold with_scripts.
  induction nics as [|nic nics IH]; intros [|s scripts] m p Hp; try reflexivity.
  simpl. rewrite IH by (intros Hin; apply Hp; now right).
  apply lookup_insert_ne. intros ->. apply Hp. now left.
Qed.

(** When the paths are distinct, each one holds the script of the NIC at
    its position. *)
Lemma with_scripts_lookup instance nics : forall scripts m k nic script,
  NoDup scripts ->
  nics !! k = Some nic -> scripts !! k = Some script ->
  with_scripts instance nics scripts m !! script
    = Some (File (net_script instance nic) 493).
Proof.
  induction nics as [|n nics IH]; intros [|s scripts] m k nic script Hnd Hn Hs;
    try (destruct k; discriminate).
  apply NoDup_cons in Hnd as [Hs_new Hnd].
  destruct k as [|k]; simpl in Hn, Hs.
  - injection Hn as ->. injection Hs as ->.
    change (with_scripts instance (nic :: nics) (script :: scripts) m)
      with (with_scripts instance nics scripts
              (<[script := File (net_script instance nic) 493]> m)).
    rewrite with_scripts_other by exact Hs_new.
    apply lookup_insert_eq.
  - change (with_scripts instance (n :: nics) (s :: scripts) m)
      with (with_scripts instance nics scripts
              (<[s := File (net_script instance n) 493]> m)).
    now apply (IH scripts _ k).
Qed.

(** Whatever the paths, each one holds the script of a NIC that was given
    that path, the last one written there. *)
Lemma with_scripts_last instance nics : forall scripts m k script,
  length scripts = length nics ->
  scripts !! k = Some script ->
  exists j nic,
    (k <= j)%nat /\ nics !! j = Some nic /\ scripts !! j = Some script
    /\ with_scripts instance nics scripts m !! script
         = Some (File (net_script instance nic) 493).
Proof.
  induction nics as [|n nics IH]; intros [|s scripts] m k script Hlen Hs;
    try discriminate Hlen; try (destruct k; discriminate Hs).
  injection Hlen as Hlen.
  change (with_scripts instance (n :: nics) (s :: scripts) m)
    with (with_scripts instance nics scripts
            (<[s := File (net_script instance n) 493]> m)).
  destruct k as [|k]; simpl in Hs.
  - injection Hs as ->.
    destruct (decide (script ∈ scripts)) as [Hin | Hout].
    + apply list_elem_of_lookup_1 in Hin as [k' Hk'].
      destruct (IH scripts (<[script := File (net_script instance n) 493]> m)
                  k' script Hlen Hk') as (j & nic & _ & Hn & Hj & Hw).
      exists (S j), nic. repeat split; auto. lia.
    + exists 0%nat, n. repeat split; auto.
      rewrite with_scripts_other by exact Hout. apply lookup_insert_eq.
  - destruct (IH scripts (<[s := File (net_script instance n) 493]> m)
                k script Hlen Hs) as (j & nic & Hle & Hn & Hj & Hw).
    exists (S j), nic. repeat split; auto. lia.
Qed.

(** When the build phase completes, the command line is the launch
    specification of the design, for the scripts it wrote. *)
Lemma build_kvm_cmd_ok instance block_devices w cmd scripts w' :
  build_kvm_cmd instance block_devices (pid_file_of (name instance)) [] w
    = (Ok (cmd, scripts), w') ->
  exists memory vcpus acpi kernel initrd,
    beparams instance !! BE_MEMORY = Some memory
    /\ beparams instance !! BE_VCPUS = Some vcpus
    /\ hvparams instance !! HV_ACPI = Some acpi
    /\ hvparams instance !! HV_KERNEL_PATH = Some kernel
    /\ hvparams instance !! HV_INITRD_PATH = Some initrd
    /\ length scripts = length (nics instance)
    /\ cmd = launch_spec instance block_devices scripts memory vcpus acpi kernel initrd
    /\ trace w' = trace w ++ map EvCreateFile scripts
    /\ Forall (script_present (os w')) scripts
    /\ procs (os w') = procs (os w).
Proof.
  intros Hrun. unfold build_kvm_cmd, getitem in Hrun. unfold_monad.
  destruct (beparams instance !! BE_MEMORY) as [memory|]; [| discriminate Hrun].
  destruct (beparams instance !! BE_VCPUS) as [vcpus|]; [| discriminate Hrun].
  destruct (hvparams instance !! HV_ACPI) as [acpi|]; [| discriminate Hrun].
  exists memory, vcpus, acpi.
  destruct (nics instance) as [|nic nics'] eqn:Hnics.
  - destruct (hvparams instance !! HV_KERNEL_PATH) as [kernel|]; [| discriminate Hrun].
    destruct (hvparams instance !! HV_INITRD_PATH) as [initrd|]; [| discriminate Hrun].
    injection Hrun as <- <- <-.
    exists kernel, initrd. repeat split; auto.
    + unfold launch_spec. rewrite Hnics. rewrite drive_loop_spec.
      destruct (truthy acpi), (truthy initrd); simpl; rewrite <- ?app_assoc; reflexivity.
    + simpl. now rewrite app_nil_r.
  - destruct (nic_loop instance (nic :: nics') 0 _ [] w) as [[[c t]|e] w1] eqn:Hloop;
      [| discriminate Hrun].
    apply nic_loop_ok in Hloop
      as (ss & Hlen & Hcmd & Htemps & Htrace & Hall & _ & Hprocs).
    destruct (hvparams instance !! HV_KERNEL_PATH) as [kernel|]; [| discriminate Hrun].
    destruct (hvparams instance !! HV_INITRD_PATH) as [initrd|]; [| discriminate Hrun].
    injection Hrun as <- <- <-. simpl in Htemps. subst t c.
    exists kernel, initrd. repeat split; auto.
    unfold launch_spec. rewrite Hnics. rewrite drive_loop_spec.
    unfold net_directives.
    destruct (truthy acpi), (truthy initrd); simpl; rewrite <- ?app_assoc; reflexivity.
Qed.

(** Whatever the outcome of the build phase, all it did was to create
    files. *)
Lemma build_kvm_cmd_trace instance block_devices pidfile w :
  exists created,
    trace (snd (build_kvm_cmd instance block_devices pidfile [] w)) =
    trace w ++ map EvCreateFile created.
Proof.
  unfold build_kvm_cmd, getitem. unfold_monad.
  assert (Hnil : exists created : list string, trace w = trace w ++ map EvCreateFile created)
    by (exists []; simpl; now rewrite app_nil_r).
  destruct (beparams instance !! BE_MEMORY) as [memory|]; [| exact Hnil].
  destruct (beparams instance !! BE_VCPUS) as [vcpus|]; [| exact Hnil].
  destruct (hvparams instance !! HV_ACPI) as [acpi|]; [| exact Hnil].
  destruct (nics instance) as [|nic nics'] eqn:Hnics.
  - destruct (hvparams instance !! HV_KERNEL_PATH) as [kernel|]; [| exact Hnil].
    destruct (hvparams instance !! HV_INITRD_PATH) as [initrd|]; exact Hnil.
  - match goal with |- context [nic_loop instance ?n ?s ?c ?t w] =>
      destruct (nic_loop_trace instance n s c t w) as [created Hc];
      destruct (nic_loop instance n s c t w) as [[[c' t']|e] w1]
    end; simpl in Hc.
    + destruct (hvparams instance !! HV_KERNEL_PATH) as [kernel|]; [| eauto].
      destruct (hvparams instance !! HV_INITRD_PATH) as [initrd|]; eauto.
    + eauto.
Qed.

(** On a host where temporary files can always be made, the loop over the
    NICs completes. *)
Lemma nic_loop_total instance nics :
  (forall o, is_Some (mkstemp o)) ->
  forall seq cmd temps w,
  exists r w', nic_loop instance nics seq cmd temps w = (Ok r, w').
Proof.
  intros Htmp. induction nics as [|nic nics IH]; intros seq cmd temps w.
  - simpl. eauto.
  - simpl. unfold mbind, M_bind. rewrite WriteNetScript_run.
    destruct (Htmp (os w)) as [path ->]. apply IH.
Qed.

(** The build phase completes when the instance carries its sizing and
    hypervisor parameters and temporary files can be made. *)
Lemma build_kvm_cmd_total instance block_devices pidfile w memory vcpus acpi kernel initrd :
  (forall o, is_Some (mkstemp o)) ->
  beparams instance !! BE_MEMORY = Some memory ->
  beparams instance !! BE_VCPUS = Some vcpus ->
  hvparams instance !! HV_ACPI = Some acpi ->
  hvparams instance !! HV_KERNEL_PATH = Some kernel ->
  hvparams instance !! HV_INITRD_PATH = Some initrd ->
  exists r w', build_kvm_cmd instance block_devices pidfile [] w = (Ok r, w').
Proof.
  intros Htmp Hm Hv Ha Hk Hi. unfold build_kvm_cmd, getitem. unfold_monad.
  rewrite Hm, Hv, Ha.
  destruct (nics instance) as [|nic nics'] eqn:Hnics.
  - rewrite Hk, Hi. eauto.
  - match goal with |- context [nic_loop instance ?n ?s ?c ?t w] =>
      destruct (nic_loop_total instance n Htmp s c t w) as ([c' t'] & w1 & ->)
    end.
    rewrite Hk, Hi. eauto.
Qed.

(** ** The phases of StartInstance *)

Lemma remove_files_run paths : forall w,
  remove_files paths w = (Ok tt, without_files paths w).
Proof.
  induction paths as [|p paths IH]; intros w.
  - unfold without_files. simpl. rewrite app_nil_r. now destruct w as [[f pr] t].
  - simpl. unfold RemoveFile. unfold_monad. rewrite IH.
    unfold without_files. simpl. now rewrite <- app_assoc.
Qed.

Lemma foldl_delete_absent (paths : list string) : forall (m : gmap string file) p,
  m !! p = None -> foldl (fun m p => delete p m) m paths !! p = None.
Proof.
  induction paths as [|q paths IH]; intros m p Hp; [exact Hp |].
  simpl. apply IH. rewrite lookup_delete. now case_decide.
Qed.

Lemma foldl_delete_gone (paths : list string) : forall (m : gmap string file) p,
  In p paths -> foldl (fun m p => delete p m) m paths !! p = None.
Proof.
  induction paths as [|q paths IH]; intros m p Hin; [destruct Hin |].
  simpl. destruct (decide (q = p)) as [->|Hne].
  - apply foldl_delete_absent, lookup_delete_eq.
  - destruct Hin as [Hq | Hin]; [contradiction | now apply IH].
Qed.

(** What [StartInstance] does on an instance that is not running, phase
    by phase: build, launch, check, clean up. *)
Lemma StartInstance_not_running instance block_devices extra_args w :
  is_running (name instance) (os w) = false ->
  StartInstance instance block_devices extra_args w =
  match build_kvm_cmd instance block_devices (pid_file_of (name instance)) [] w with
  | (Raise e, w1) => (Raise e, w1)
  | (Ok (cmd, scripts), w1) =>
      let '(res, o2) := run_cmd (Argv cmd) (os w1) in
      let w2 := {| os := o2; trace := trace w1 ++ [EvRunCmd (Argv cmd)] |} in
      if failed res then (Raise (launch_failure instance res), w2)
      else if is_running (name instance) o2 then (Ok tt, without_files scripts w2)
      else (Raise (TypeError "not enough arguments for format string"), w2)
  end.
Proof.
  intros Hrun. unfold is_running in Hrun.
  unfold StartInstance, RunCmd. unfold_monad. simpl.
  unfold pid_file_of in *. rewrite Hrun.
  destruct (build_kvm_cmd instance block_devices _ [] w) as [[[cmd scripts]|e] w1];
    [| reflexivity].
  destruct (run_cmd (Argv cmd) (os w1)) as [res o2]. simpl.
  destruct (failed res).
  - unfold launch_failure. simpl. reflexivity.
  - simpl.
    change (process_alive (read_pid_file (_PIDS_DIR +:+ "/" +:+ name instance) o2) o2)
      with (is_running (name instance) o2).
    destruct (is_running (name instance) o2); simpl;
      [apply remove_files_run | reflexivity].
Qed.

Lemma effects_of_trace {A} (m : M A) w evs :
  trace (snd (m w)) = trace w ++ evs -> effects m w = evs.
Proof. intros Ht. unfold effects. rewrite Ht. apply drop_app_length. Qed.

Lemma not_run_in_created cmd created : ~ In (EvRunCmd cmd) (map EvCreateFile created).
Proof. intros Hin. apply in_map_iff in Hin as (p & Hp & _). discriminate Hp. Qed.

Lemma not_run_in_removed cmd removed : ~ In (EvRunCmd cmd) (map EvRemoveFile removed).
Proof. intros Hin. apply in_map_iff in Hin as (p & Hp & _). discriminate Hp. Qed.

(** A run of [StartInstance] that executes a launch command: the instance
    was not running, the build phase completed with that command, and the
    events are the creation of the scripts, the launch, and then either
    nothing or the removal of the scripts. *)
Lemma start_launched instance block_devices extra_args w cmd :
  In (EvRunCmd (Argv cmd)) (effects (StartInstance instance block_devices extra_args) w) ->
  is_running (name instance) (os w) = false
  /\ exists scripts w1 rest,
       build_kvm_cmd instance block_devices (pid_file_of (name instance)) [] w
         = (Ok (cmd, scripts), w1)
       /\ effects (StartInstance instance block_devices extra_args) w
            = map EvCreateFile scripts ++ EvRunCmd (Argv cmd) :: rest
       /\ ((rest = []
            /\ exists e, fst (StartInstance instance block_devices extra_args w) = Raise e) \/
           (rest = map EvRemoveFile scripts
            /\ fst (StartInstance instance block_devices extra_args w) = Ok tt
            /\ exists w2, snd (StartInstance instance block_devices extra_args w)
                            = without_files scripts w2)).
Proof.
  intros Hin.
  destruct (is_running (name instance) (os w)) eqn:Hrun.
  { destruct (start_refused instance block_devices extra_args w Hrun) as [_ He].
    rewrite He in Hin. destruct Hin. }
  split; [reflexivity |].
  pose proof (StartInstance_not_running instance block_devices extra_args w Hrun) as Hs.
  pose proof (build_kvm_cmd_trace instance block_devices (pid_file_of (name instance)) w)
    as [created Hcreated].
  destruct (build_kvm_cmd instance block_devices (pid_file_of (name instance)) [] w)
    as [[[cmd0 scripts]|e] w1] eqn:Hbuild.
  2:{ exfalso. rewrite (effects_of_trace _ w (map EvCreateFile created)) in Hin.
      - exact (not_run_in_created _ _ Hin).
      - rewrite Hs. exact Hcreated. }
  pose proof (build_kvm_cmd_ok _ _ _ _ _ _ Hbuild)
    as (m & v & a & k & i & _ & _ & _ & _ & _ & _ & _ & Htrace & _ & _).
  cbv beta iota in Hs.
  destruct (run_cmd (Argv cmd0) (os w1)) as [res o2] eqn:Hcmd.
  cbv beta iota zeta in Hs.
  assert (Hshape : exists rest,
    effects (StartInstance instance block_devices extra_args) w
      = map EvCreateFile scripts ++ EvRunCmd (Argv cmd0) :: rest
    /\ ((rest = []
         /\ exists e, fst (StartInstance instance block_devices extra_args w) = Raise e) \/
        (rest = map EvRemoveFile scripts
         /\ fst (StartInstance instance block_devices extra_args w) = Ok tt
         /\ exists w2, snd (StartInstance instance block_devices extra_args w)
                         = without_files scripts w2))).
  { destruct (failed res) eqn:Hfail; [| destruct (is_running (name instance) o2) eqn:Hrun2].
    - exists []. split; [| left; rewrite Hs; eauto].
      apply effects_of_trace. rewrite Hs. simpl.
      rewrite Htrace, <- app_assoc. reflexivity.
    - exists (map EvRemoveFile scripts). split.
      + apply effects_of_trace. rewrite Hs. simpl.
        rewrite Htrace, <- !app_assoc. reflexivity.
      + right. rewrite Hs. simpl. eauto.
    - exists []. split; [| left; rewrite Hs; eauto].
      apply effects_of_trace. rewrite Hs. simpl.
      rewrite Htrace, <- app_assoc. reflexivity. }
  destruct Hshape as (rest & Heff & Hrest).
  assert (cmd = cmd0) as ->.
  { rewrite Heff in Hin. apply in_app_or in Hin as [Hin | [Hin | Hin]].
    - now apply not_run_in_created in Hin.
    - now injection Hin.
    - destruct Hrest as [[-> _] | [-> _]]; [destruct Hin |].
      now apply not_run_in_removed in Hin. }
  exists scripts, w1, rest. auto.
Qed.

(** ** The launch specification *)

(** C7. Whenever [StartInstance] executes a launch command, that command
    is the launch specification of the design for the instance: with N
    NICs, the network part is the N pairs of [-net] directives (front-end
    device, then tap device bound to the script of that NIC) in NIC order,
    or the single [-net none] when there is no NIC; the disk part is one
    [-drive] directive per block device, in order, and only the first
    carries [boot=on]. The N paths the tap directives name are the wiring
    scripts this [StartInstance] wrote: they are the files it created, in
    NIC order and right before the launch; when the command is executed
    the files of the host are those it started with and, under these
    paths, the script text of each NIC (executable), written in NIC order;
    so every path holds the wiring script of a NIC whose tap directive
    names it, and when the paths are distinct the path of each NIC holds
    the wiring script of that very NIC. *)
Theorem launch_specification instance block_devices extra_args w cmd :
  In (EvRunCmd (Argv cmd)) (effects (StartInstance instance block_devices extra_args) w) ->
  exists scripts at_launch rest memory vcpus acpi kernel initrd,
    beparams instance !! BE_MEMORY = Some memory
    /\ beparams instance !! BE_VCPUS = Some vcpus
    /\ hvparams instance !! HV_ACPI = Some acpi
    /\ hvparams instance !! HV_KERNEL_PATH = Some kernel
    /\ hvparams instance !! HV_INITRD_PATH = Some initrd
    /\ length scripts = length (nics instance)
    /\ cmd = launch_spec instance block_devices scripts memory vcpus acpi kernel initrd
    /\ (nics instance = [] -> net_directives (nics instance) scripts = [VStr "-net"; VStr "none"])
    /\ (nics instance <> [] ->
        net_directives (nics instance) scripts
          = concat (zip_with nic_directives (nics instance) scripts))
    /\ disk_directives block_devices = concat (imap disk_directive block_devices)
    /\ build_kvm_cmd instance block_devices (pid_file_of (name instance)) [] w
         = (Ok (cmd, scripts), at_launch)
    /\ effects (StartInstance instance block_devices extra_args) w
         = map EvCreateFile scripts ++ EvRunCmd (Argv cmd) :: rest
    /\ files (os at_launch)
         = with_scripts instance (nics instance) scripts (files (os w))
    /\ Forall (script_present (os at_launch)) scripts
    /\ (forall k script,
          scripts !! k = Some script ->
          exists j nic,
            (k <= j)%nat /\ nics instance !! j = Some nic
            /\ scripts !! j = Some script
            /\ wires instance (os at_launch) nic script)
    /\ (NoDup scripts ->
        forall k nic script,
          nics instance !! k = Some nic -> scripts !! k = Some script ->
          wires instance (os at_launch) nic script).
Proof.
  intros Hin.
  apply start_launched in Hin as (_ & scripts & w1 & rest & Hbuild & Heff & _).
  pose proof (build_kvm_cmd_files _ _ _ _ _ _ Hbuild) as Hfiles.
  pose proof (build_kvm_cmd_ok _ _ _ _ _ _ Hbuild)
    as (m & v & a & k & i & Hm & Hv & Ha & Hk & Hi & Hlen & Hcmd & _ & Hall & _).
  exists scripts, w1, rest, m, v, a, k, i.
  do 7 (split; [assumption |]).
  split; [now intros -> |].
  split.
  { intros Hne. unfold net_directives.
    destruct (nics instance); [contradiction | reflexivity]. }
  split; [reflexivity |].
  do 4 (split; [assumption |]).
  split.
  - intros n script Hs. unfold wires. rewrite Hfiles.
    now apply with_scripts_last.
  - intros Hnd n nic script Hn Hs. unfold wires. rewrite Hfiles.
    now apply (with_scripts_lookup instance (nics instance) scripts _ n).
Qed.

(** A successful [StartInstance] has executed a launch command. *)
Lemma start_success_launched instance block_devices extra_args w :
  fst (StartInstance instance block_devices extra_args w) = Ok tt ->
  exists cmd,
    In (EvRunCmd (Argv cmd)) (effects (StartInstance instance block_devices extra_args) w).
Proof.
  intros Hok.
  destruct (is_running (name instance) (os w)) eqn:Hrun.
  { destruct (start_refused instance block_devices extra_args w Hrun) as [He _].
    rewrite He in Hok. discriminate Hok. }
  pose proof (StartInstance_not_running instance block_devices extra_args w Hrun) as Hs.
  destruct (build_kvm_cmd instance block_devices (pid_file_of (name instance)) [] w)
    as [[[cmd scripts]|e] w1] eqn:Hbuild.
  2:{ rewrite Hs in Hok. discriminate Hok. }
  pose proof (build_kvm_cmd_ok _ _ _ _ _ _ Hbuild)
    as (m & v & a & k & i & _ & _ & _ & _ & _ & _ & _ & Htrace & _ & _).
  cbv beta iota in Hs.
  destruct (run_cmd (Argv cmd) (os w1)) as [res o2] eqn:Hcmd.
  cbv beta iota zeta in Hs.
  destruct (failed res); [rewrite Hs in Hok; discriminate Hok |].
  destruct (is_running (name instance) o2); [| rewrite Hs in Hok; discriminate Hok].
  exists cmd.
  rewrite (effects_of_trace _ w
             (map EvCreateFile scripts ++ EvRunCmd (Argv cmd) :: map EvRemoveFile scripts)).
  - apply in_or_app. right. now left.
  - rewrite Hs. simpl. rewrite Htrace, <- !app_assoc. reflexivity.
Qed.

(** ** The network wiring scripts *)

(** C8. Whenever [StartInstance] executes the launch command for an
    instance with N NICs, it has created exactly N script files before it,
    all of them on the host (executable) when the command runs, and nothing
    else happened before the launch. When that [StartInstance] returns
    successfully, what follows the launch is the removal of those N files,
    and none of them is left on the host. *)
Theorem wiring_scripts instance block_devices extra_args w cmd :
  In (EvRunCmd (Argv cmd)) (effects (StartInstance instance block_devices extra_args) w) ->
  exists scripts at_launch rest,
    length scripts = length (nics instance)
    /\ build_kvm_cmd instance block_devices (pid_file_of (name instance)) [] w
         = (Ok (cmd, scripts), at_launch)
    /\ trace at_launch = trace w ++ map EvCreateFile scripts
    /\ Forall (script_present (os at_launch)) scripts
    /\ effects (StartInstance instance block_devices extra_args) w
         = map EvCreateFile scripts ++ EvRunCmd (Argv cmd) :: rest
    /\ (fst (StartInstance instance block_devices extra_args w) = Ok tt ->
        rest = map EvRemoveFile scripts
        /\ Forall (fun p =>
                     files (os (snd (StartInstance instance block_devices extra_args w))) !! p
                     = None) scripts).
Proof.
  intros Hin.
  apply start_launched in Hin as (_ & scripts & w1 & rest & Hbuild & Heff & Hrest).
  pose proof (build_kvm_cmd_ok _ _ _ _ _ _ Hbuild)
    as (m & v & a & k & i & _ & _ & _ & _ & _ & Hlen & _ & Htrace & Hall & _).
  exists scripts, w1, rest.
  split; [exact Hlen |]. split; [exact Hbuild |]. split; [exact Htrace |].
  split; [exact Hall |]. split; [exact Heff |].
  intros Hok. destruct Hrest as [[_ [e He]] | (Hr & _ & w2 & Hw2)].
  - rewrite He in Hok. discriminate Hok.
  - split; [exact Hr |].
    rewrite Hw2. apply Forall_forall. intros p Hp.
    unfold without_files. simpl. apply foldl_delete_gone.
    now apply list_elem_of_In.
Qed.

(** Once the build phase has completed, the launch command is executed. *)
Lemma start_launches instance block_devices extra_args w cmd scripts w1 :
  is_running (name instance) (os w) = false ->
  build_kvm_cmd instance block_devices (pid_file_of (name instance)) [] w
    = (Ok (cmd, scripts), w1) ->
  In (EvRunCmd (Argv cmd)) (effects (StartInstance instance block_devices extra_args) w).
Proof.
  intros Hrun Hbuild.
  pose proof (StartInstance_not_running instance block_devices extra_args w Hrun) as Hs.
  rewrite Hbuild in Hs.
  pose proof (build_kvm_cmd_ok _ _ _ _ _ _ Hbuild)
    as (m & v & a & k & i & _ & _ & _ & _ & _ & _ & _ & Htrace & _ & _).
  destruct (run_cmd (Argv cmd) (os w1)) as [res o2] eqn:Hcmd.
  cbv beta iota zeta in Hs.
  assert (Hshape : exists rest,
    trace (snd (StartInstance instance block_devices extra_args w))
      = trace w ++ (map EvCreateFile scripts ++ EvRunCmd (Argv cmd) :: rest)).
  { destruct (failed res); [| destruct (is_running (name instance) o2)];
      rewrite Hs; simpl; rewrite Htrace, <- ?app_assoc; eauto. }
  destruct Hshape as [rest Hshape].
  rewrite (effects_of_trace _ _ _ Hshape).
  apply in_or_app. right. now left.
Qed.

(** The post-launch check of [StartInstance]: the launch command reported
    success, yet the PID file names no live process. The method then fails
    while formatting its message (two directives, one argument), and what
    comes out is a [TypeError]. *)
Lemma start_post_launch_check instance block_devices extra_args w cmd scripts w1 res o2 :
  is_running (name instance) (os w) = false ->
  build_kvm_cmd instance block_devices (pid_file_of (name instance)) [] w
    = (Ok (cmd, scripts), w1) ->
  run_cmd (Argv cmd) (os w1) = (res, o2) ->
  failed res = false ->
  is_running (name instance) o2 = false ->
  StartInstance instance block_devices extra_args w =
    (Raise (TypeError "not enough arguments for format string"),
     {| os := o2; trace := trace w1 ++ [EvRunCmd (Argv cmd)] |}).
Proof.
  intros Hrun Hbuild Hcmd Hfail Hdead.
  rewrite (StartInstance_not_running _ _ _ _ Hrun), Hbuild, Hcmd.
  cbv beta iota zeta. now rewrite Hfail, Hdead.
Qed.

(** ** StartInstance and the validation of parameters *)

(** C5, as amended. [StartInstance] validates nothing: for an instance
    that is not running and carries its sizing and hypervisor parameters,
    on a host where temporary files can be made, it executes the launch
    command with the kernel parameter passed as it is after [-kernel],
    whatever that value is (relative, empty, not a string). Validation is
    what [CheckParameterSyntax] and [ValidateParameters] do when the caller
    runs them. *)
Theorem start_does_not_validate instance block_devices extra_args w
    memory vcpus acpi kernel initrd :
  is_running (name instance) (os w) = false ->
  (forall o, is_Some (mkstemp o)) ->
  beparams instance !! BE_MEMORY = Some memory ->
  beparams instance !! BE_VCPUS = Some vcpus ->
  hvparams instance !! HV_ACPI = Some acpi ->
  hvparams instance !! HV_KERNEL_PATH = Some kernel ->
  hvparams instance !! HV_INITRD_PATH = Some initrd ->
  exists scripts cmd before after,
    cmd = launch_spec instance block_devices scripts memory vcpus acpi kernel initrd
    /\ cmd = before ++ [VStr "-kernel"; kernel] ++ after
    /\ In (EvRunCmd (Argv cmd))
          (effects (StartInstance instance block_devices extra_args) w).
Proof.
  intros Hrun Htmp Hm Hv Ha Hk Hi.
  destruct (build_kvm_cmd_total instance block_devices (pid_file_of (name instance)) w
              _ _ _ _ _ Htmp Hm Hv Ha Hk Hi) as ([cmd scripts] & w1 & Hbuild).
  pose proof (build_kvm_cmd_ok _ _ _ _ _ _ Hbuild)
    as (m' & v' & a' & k' & i' & Hm' & Hv' & Ha' & Hk' & Hi' & _ & Hcmd & _).
  rewrite Hm in Hm'. rewrite Hv in Hv'. rewrite Ha in Ha'. rewrite Hk in Hk'.
  rewrite Hi in Hi'.
  injection Hm' as <-. injection Hv' as <-. injection Ha' as <-.
  injection Hk' as <-. injection Hi' as <-.
  exists scripts, cmd.
  eexists ([VStr KVM_PATH; VStr "-m"; memory; VStr "-smp"; vcpus;
            VStr "-pidfile"; VStr (pid_file_of (name instance));
            VStr "-name"; VStr (name instance); VStr "-daemonize"] ++
           (if truthy acpi then [] else [VStr "-no-acpi"]) ++
           net_directives (nics instance) scripts ++
           disk_directives block_devices), _.
  split; [exact Hcmd |]. split.
  - rewrite Hcmd. unfold launch_spec. rewrite <- !app_assoc. reflexivity.
  - eapply start_launches; eassumption.
Qed.

(** ** RebootInstance *)

(** [RebootInstance] stops the instance and then calls [StartInstance]
    with the instance alone: the call raises before the method runs, so
    the reboot does exactly what the stop did and never returns normally. *)
Lemma reboot_is_stop_then_TypeError instance w :
  effects (RebootInstance instance) w = effects (StopInstance instance false) w
  /\ (exists e, fst (RebootInstance instance w) = Raise e)
  /\ (forall w1, StopInstance instance false w = (Ok tt, w1) ->
      RebootInstance instance w =
        (Raise (TypeError "StartInstance() takes exactly 4 arguments (2 given)"), w1)).
Proof.
  unfold RebootInstance, effects, mbind, M_bind, call_StartInstance, raise.
  destruct (StopInstance instance false w) as [[[]|e] w1]; simpl.
  - split; [reflexivity |]. split; [eauto |].
    intros w2 Heq. now injection Heq as <-.
  - split; [reflexivity |]. split; [eauto |]. intros w2 Heq. discriminate Heq.
Qed.

(** ** The two validation phases *)

Lemma truthy_absolute v : is_path v -> absolute v = true -> truthy v = true.
Proof.
  intros [-> | [s ->]]; simpl; [discriminate |].
  destruct s as [|c s]; [discriminate | reflexivity].
Qed.

(** The syntax check on a mapping that holds both path parameters and
    passes the check of the base class, case by case. *)
Lemma CheckParameterSyntax_cases hv kernel initrd :
  base_CheckParameterSyntax hv = Ok tt ->
  hv !! HV_KERNEL_PATH = Some kernel -> is_path kernel ->
  hv !! HV_INITRD_PATH = Some initrd -> is_path initrd ->
  CheckParameterSyntax hv =
    if negb (truthy kernel) then Raise (HypervisorError "Need a kernel for the instance")
    else if negb (absolute kernel)
      then Raise (HypervisorError "The kernel path must an absolute path")
    else if truthy initrd && negb (absolute initrd)
      then Raise (HypervisorError "The initrd path must an absolute path, if defined")
    else Ok tt.
Proof.
  intros Hbase Hk Hkp Hi Hip.
  unfold CheckParameterSyntax, getitem, mbind, result_bind.
  rewrite Hbase, Hk, Hi.
  destruct Hkp as [-> | [k ->]]; [reflexivity |].
  simpl. destruct (negb (negb (String.eqb k ""))); [reflexivity |].
  destruct (isabs k); [| reflexivity]. simpl.
  destruct Hip as [-> | [i ->]]; [reflexivity |].
  simpl. destruct (negb (String.eqb i "")); [| reflexivity].
  simpl. destruct (isabs i); reflexivity.
Qed.

(** C9. For a parameter mapping that holds the kernel and initrd path
    parameters (strings, or [None] when not given) and passes the check of
    the base class: [CheckParameterSyntax] raises a [HypervisorError]
    exactly when the kernel path is missing or not absolute, or the initrd
    path is given and not absolute, and returns normally otherwise. It is a
    function of the mapping alone: it takes no host state, so what files
    exist cannot matter. And when the kernel path is absolute but names no
    regular file of host [w] (the initrd path being acceptable), the syntax
    check passes while [ValidateParameters] raises a [HypervisorError] on
    [w]. *)
Theorem validation_phases hv kernel initrd :
  base_CheckParameterSyntax hv = Ok tt ->
  hv !! HV_KERNEL_PATH = Some kernel -> is_path kernel ->
  hv !! HV_INITRD_PATH = Some initrd -> is_path initrd ->
  ((exists msg, CheckParameterSyntax hv = Raise (HypervisorError msg))
     <-> (truthy kernel = false \/ absolute kernel = false
          \/ (truthy initrd = true /\ absolute initrd = false)))
  /\ (~ (truthy kernel = false \/ absolute kernel = false
         \/ (truthy initrd = true /\ absolute initrd = false))
      -> CheckParameterSyntax hv = Ok tt)
  /\ (forall w path,
        kernel = VStr path -> isabs path = true ->
        (truthy initrd = false \/ absolute initrd = true) ->
        files (os w) !! path = None ->
        base_ValidateParameters hv (os w) = Ok tt ->
        CheckParameterSyntax hv = Ok tt
        /\ ValidateParameters hv w =
             (Raise (HypervisorError
                       ("Instance kernel '" +:+ path +:+ "' not found or not a file")),
              w)).
Proof.
  intros Hbase Hk Hkp Hi Hip.
  pose proof (CheckParameterSyntax_cases hv kernel initrd Hbase Hk Hkp Hi Hip) as Hc.
  split; [| split].
  - rewrite Hc. split.
    + intros [msg Hmsg].
      destruct (truthy kernel); [| now left].
      destruct (absolute kernel); [| now right; left].
      destruct (truthy initrd), (absolute initrd); simpl in Hmsg; try discriminate Hmsg.
      right; right. now split.
    + intros [Ht | [Ha | [Ht Ha]]].
      * rewrite Ht. simpl. eauto.
      * destruct (truthy kernel); simpl; [| eauto]. rewrite Ha. simpl. eauto.
      * destruct (truthy kernel); simpl; [| eauto].
        destruct (absolute kernel); simpl; [| eauto].
        rewrite Ht, Ha. simpl. eauto.
  - intros Hgood. rewrite Hc.
    destruct (truthy kernel); [| exfalso; apply Hgood; now left].
    destruct (absolute kernel); [| exfalso; apply Hgood; now right; left].
    destruct (truthy initrd), (absolute initrd); simpl; try reflexivity.
    exfalso. apply Hgood. right; right. now split.
  - intros w path -> Habs Hinitrd Hnofile Hbase'.
    split.
    + rewrite Hc. rewrite (truthy_absolute (VStr path)) by (simpl; eauto).
      simpl. rewrite Habs. simpl.
      destruct Hinitrd as [-> | ->]; [reflexivity |].
      now rewrite andb_false_r.
    + unfold ValidateParameters, getitem, os_path_isfile. unfold_monad.
      rewrite Hbase', Hk, Hnofile. simpl. reflexivity.
Qed.

(** ** GetInstanceInfo *)

Lemma follows_here flag value after : follows flag value (flag :: value :: after).
Proof. now exists [], after. Qed.

Lemma follows_later flag value a args :
  follows flag value args -> follows flag value (a :: args).
Proof. intros (before & after & ->). now exists (a :: before), after. Qed.

(** What the scan of the arguments computes. When it returns: a field
    whose flag is not among the arguments keeps its initial value, and a
    field that changed holds, as a string, an argument that comes right
    after its flag. It fails only when the arguments end with a flag. *)
Lemma scan_args_facts : forall n args m v,
  (length args <= n)%nat ->
  match scan_args args m v with
  | Ok (m', v') =>
      (~ In "-m" args -> m' = m)
      /\ (~ In "-smp" args -> v' = v)
      /\ (m' = m \/ exists s, m' = VStr s /\ follows "-m" s args)
      /\ (v' = v \/ exists s, v' = VStr s /\ follows "-smp" s args)
  | Raise e =>
      e = IndexError "pop from empty list"
      /\ exists flag, sizing_flag flag /\ last args = Some flag
  end.
Proof.
  induction n as [|n IH]; intros args m v Hlen.
  - destruct args; [| simpl in Hlen; lia]. simpl. auto.
  - destruct args as [|arg rest]; [simpl; auto |].
    simpl in Hlen. simpl.
    destruct (String.eqb_spec arg "-m") as [-> | Hm].
    + destruct rest as [|s rest].
      * split; [reflexivity |]. exists "-m". split; [now left | reflexivity].
      * simpl in Hlen. specialize (IH rest (VStr s) v ltac:(lia)).
        destruct (scan_args rest (VStr s) v) as [[m' v']|e].
        -- destruct IH as (Hm' & Hv' & Hmf & Hvf).
           split; [intros Hno; exfalso; apply Hno; now left |].
           split.
           { intros Hno. apply Hv'. intros Hin. apply Hno. now right; right. }
           split.
           { right. destruct Hmf as [-> | (s' & -> & Hf)].
             - exists s. split; [reflexivity | apply follows_here].
             - exists s'. split; [reflexivity |]. now do 2 apply follows_later. }
           { destruct Hvf as [-> | (s' & -> & Hf)]; [now left |].
             right. exists s'. split; [reflexivity |]. now do 2 apply follows_later. }
        -- destruct IH as (-> & flag & Hflag & Hlast).
           split; [reflexivity |]. exists flag. split; [exact Hflag |].
           destruct rest; [discriminate Hlast |]. exact Hlast.
    + destruct (String.eqb_spec arg "-smp") as [-> | Hs].
      * destruct rest as [|s rest].
        -- split; [reflexivity |]. exists "-smp". split; [now right | reflexivity].
        -- simpl in Hlen. specialize (IH rest m (VStr s) ltac:(lia)).
           destruct (scan_args rest m (VStr s)) as [[m' v']|e].
           ++ destruct IH as (Hm' & Hv' & Hmf & Hvf).
              split.
              { intros Hno. apply Hm'. intros Hin. apply Hno. now right; right. }
              split; [intros Hno; exfalso; apply Hno; now left |].
              split.
              { destruct Hmf as [-> | (s' & -> & Hf)]; [now left |].
                right. exists s'. split; [reflexivity |]. now do 2 apply follows_later. }
              { right. destruct Hvf as [-> | (s' & -> & Hf)].
                - exists s. split; [reflexivity | apply follows_here].
                - exists s'. split; [reflexivity |]. now do 2 apply follows_later. }
           ++ destruct IH as (-> & flag & Hflag & Hlast).
              split; [reflexivity |]. exists flag. split; [exact Hflag |].
              destruct rest; [discriminate Hlast |]. exact Hlast.
      * specialize (IH rest m v ltac:(lia)).
        destruct (scan_args rest m v) as [[m' v']|e].
        -- destruct IH as (Hm' & Hv' & Hmf & Hvf).
           split.
           { intros Hno. apply Hm'. intros Hin. apply Hno. now right. }
           split.
           { intros Hno. apply Hv'. intros Hin. apply Hno. now right. }
           split.
           { destruct Hmf as [-> | (s' & -> & Hf)]; [now left |].
             right. exists s'. split; [reflexivity |]. now apply follows_later. }
           { destruct Hvf as [-> | (s' & -> & Hf)]; [now left |].
             right. exists s'. split; [reflexivity |]. now apply follows_later. }
        -- destruct IH as (-> & flag & Hflag & Hlast).
           split; [reflexivity |]. exists flag. split; [exact Hflag |].
           destruct rest; [discriminate Hlast |]. exact Hlast.
Qed.

(** Arguments that are not sizing flags are skipped. *)
Lemma scan_args_skip before : forall args m v,
  Forall (fun a => ~ sizing_flag a) before ->
  scan_args (before ++ args) m v = scan_args args m v.
Proof.
  induction before as [|a before IH]; intros args m v Hno; [reflexivity |].
  apply Forall_cons in Hno as [Ha Hno]. simpl.
  destruct (String.eqb_spec a "-m") as [-> | _]; [exfalso; apply Ha; now left |].
  destruct (String.eqb_spec a "-smp") as [-> | _]; [exfalso; apply Ha; now right |].
  now apply IH.
Qed.

Lemma scan_args_no_flags args m v :
  Forall (fun a => ~ sizing_flag a) args -> scan_args args m v = Ok (m, v).
Proof.
  intros Hno. rewrite <- (app_nil_r args). now rewrite scan_args_skip.
Qed.

(** What [GetInstanceInfo] does for an instance whose PID file names a
    live process with a readable command line. *)
Lemma GetInstanceInfo_live instance_name w cmdline :
  is_running instance_name (os w) = true ->
  procs (os w) !! read_pid_file (pid_file_of instance_name) (os w) = Some (Cmdline cmdline) ->
  GetInstanceInfo instance_name w =
    match scan_args (split NUL cmdline) (VInt 0) (VInt 0) with
    | Ok (memory, vcpus) =>
        (Ok (Some (instance_name, read_pid_file (pid_file_of instance_name) (os w),
                   memory, vcpus, "---b-", "0")), w)
    | Raise e => (Raise e, w)
    end.
Proof.
  intros Hrun Hcmd. unfold is_running, pid_file_of in *.
  unfold GetInstanceInfo. unfold_monad. simpl. rewrite Hrun. simpl. rewrite Hcmd.
  destruct (scan_args (split NUL cmdline) (VInt 0) (VInt 0)) as [[m v]|e]; reflexivity.
Qed.

(** The scan of a list that starts with whole groups goes on with the
    rest, from the values the groups gave. *)
Lemma scan_args_app : forall n before args m v m' v',
  (length before <= n)%nat ->
  scan_args before m v = Ok (m', v') ->
  scan_args (before ++ args) m v = scan_args args m' v'.
Proof.
  induction n as [|n IH]; intros before args m v m' v' Hlen Hscan.
  - destruct before; [| simpl in Hlen; lia]. simpl in Hscan. now injection Hscan as <- <-.
  - destruct before as [|arg rest].
    { simpl in Hscan. now injection Hscan as <- <-. }
    simpl in Hlen, Hscan |- *.
    destruct (String.eqb arg "-m").
    + destruct rest as [|s rest]; [discriminate Hscan |].
      simpl in Hlen |- *. apply IH; [lia | exact Hscan].
    + destruct (String.eqb arg "-smp").
      * destruct rest as [|s rest]; [discriminate Hscan |].
        simpl in Hlen |- *. apply IH; [lia | exact Hscan].
      * apply IH; [lia | exact Hscan].
Qed.

(** C10. For a live instance whose command line can be read,
    [GetInstanceInfo] does not fail for lack of sizing flags: with neither
    [-m] nor [-smp] among the arguments it returns memory and vcpus as the
    integer 0, and on a command line as the OS presents it (every argument
    NUL-terminated) it always returns. Whenever it returns, status and
    times are ["---b-"] and ["0"]; a field whose flag is not among the
    arguments is the integer 0; any other value is the string of an
    argument that comes right after the flag, unparsed; and a flag read by
    the scan, with no later occurrence, gives the argument after it. *)
Theorem instance_info_sizing instance_name w cmdline :
  is_running instance_name (os w) = true ->
  procs (os w) !! read_pid_file (pid_file_of instance_name) (os w) = Some (Cmdline cmdline) ->
  let pid := read_pid_file (pid_file_of instance_name) (os w) in
  let args := split NUL cmdline in
  (~ In "-m" args -> ~ In "-smp" args ->
   GetInstanceInfo instance_name w =
     (Ok (Some (instance_name, pid, VInt 0, VInt 0, "---b-", "0")), w))
  /\ (last args = Some "" ->
      exists memory vcpus,
        GetInstanceInfo instance_name w =
          (Ok (Some (instance_name, pid, memory, vcpus, "---b-", "0")), w))
  /\ (forall info, fst (GetInstanceInfo instance_name w) = Ok info ->
      exists memory vcpus,
        info = Some (instance_name, pid, memory, vcpus, "---b-", "0")
        /\ (~ In "-m" args -> memory = VInt 0)
        /\ (~ In "-smp" args -> vcpus = VInt 0)
        /\ (memory = VInt 0 \/ exists s, memory = VStr s /\ follows "-m" s args)
        /\ (vcpus = VInt 0 \/ exists s, vcpus = VStr s /\ follows "-smp" s args)
        /\ (forall before value after,
              args = before ++ "-m" :: value :: after ->
              whole_groups before -> ~ In "-m" after -> memory = VStr value)
        /\ (forall before value after,
              args = before ++ "-smp" :: value :: after ->
              whole_groups before -> ~ In "-smp" after -> vcpus = VStr value)).
Proof.
  intros Hrun Hcmd pid args.
  pose proof (GetInstanceInfo_live instance_name w cmdline Hrun Hcmd) as Hget.
  fold pid args in Hget.
  split; [| split].
  - intros Hm Hs. rewrite Hget, scan_args_no_flags; [reflexivity |].
    apply Forall_forall. intros a Ha [-> | ->]; apply list_elem_of_In in Ha; contradiction.
  - intros Hlast. rewrite Hget.
    pose proof (scan_args_facts (length args) args (VInt 0) (VInt 0) (le_n _)) as Hf.
    destruct (scan_args args (VInt 0) (VInt 0)) as [[m v]|e]; [eauto |].
    destruct Hf as (_ & flag & [-> | ->] & Hflag); rewrite Hlast in Hflag;
      discriminate Hflag.
  - intros info Hinfo. rewrite Hget in Hinfo.
    pose proof (scan_args_facts (length args) args (VInt 0) (VInt 0) (le_n _)) as Hf.
    destruct (scan_args args (VInt 0) (VInt 0)) as [[m v]|e] eqn:Hscan;
      [| discriminate Hinfo].
    simpl in Hinfo. injection Hinfo as <-.
    destruct Hf as (Hm & Hv & Hmf & Hvf).
    exists m, v. repeat split; auto.
    + intros before value after Hargs [m0 [v0 Hwhole]] Hno.
      rewrite Hargs in Hscan.
      rewrite (scan_args_app _ _ _ _ _ _ _ (le_n _) Hwhole) in Hscan.
      simpl in Hscan.
      pose proof (scan_args_facts (length after) after (VStr value) v0 (le_n _)) as Ha.
      rewrite Hscan in Ha. destruct Ha as (Ha & _). now apply Ha.
    + intros before value after Hargs [m0 [v0 Hwhole]] Hno.
      rewrite Hargs in Hscan.
      rewrite (scan_args_app _ _ _ _ _ _ _ (le_n _) Hwhole) in Hscan.
      simpl in Hscan.
      pose proof (scan_args_facts (length after) after m0 (VStr value) (le_n _)) as Ha.
      rewrite Hscan in Ha. destruct Ha as (_ & Ha & _). now apply Ha.
Qed.

(** ** GetNodeInfo *)

Lemma figures_cons want line lines :
  figures want (line :: lines) = figures want [line] ++ figures want lines.
Proof.
  unfold figures. simpl.
  destruct (counter_of line) as [[key val]|]; [| reflexivity].
  destruct (want key); [| reflexivity].
  destruct (megabytes val); reflexivity.
Qed.

Lemma sum_Z_app l1 l2 : sum_Z (l1 ++ l2) = (sum_Z l1 + sum_Z l2)%Z.
Proof. unfold sum_Z. induction l1 as [|x l1 IH]; simpl; [reflexivity | lia]. Qed.

Lemma latest_cons want line lines before :
  latest want (line :: lines) before = latest want lines (latest want [line] before).
Proof.
  unfold latest. rewrite (figures_cons want line lines), last_app.
  destruct (last (figures want lines)); [reflexivity |].
  reflexivity.
Qed.

(** One line of [/proc/meminfo]: how it moves the sum of the free
    counters and the two figures that are stored. *)
Lemma meminfo_line_spec line result sum result' sum' :
  meminfo_line line result sum = Ok (result', sum') ->
  sum' = (sum + sum_Z (figures is_free_key [line]))%Z
  /\ result' !! "memory_total" = latest is_total_key [line] (result !! "memory_total")
  /\ result' !! "memory_dom0" = latest is_active_key [line] (result !! "memory_dom0")
  /\ (forall k, k <> "memory_total" -> k <> "memory_dom0" -> result' !! k = result !! k).
Proof.
  unfold meminfo_line, latest, figures, counter_of, megabytes, is_free_key,
    is_total_key, is_active_key.
  simpl. destruct (split1 ":" line) as [|f0 [|f1 rest]].
  - intros Heq. injection Heq as <- <-. simpl. repeat split; auto; lia.
  - intros Heq. injection Heq as <- <-. simpl. repeat split; auto; lia.
  - generalize (strip f0) (strip f1). intros key val. simpl.
    destruct (String.eqb_spec key "MemTotal") as [-> | Htotal].
    { simpl. destruct (first (words val) ≫= int) as [n|e]; [| discriminate].
      simpl. intros Heq. injection Heq as <- <-.
      split; [lia |]. split; [now rewrite lookup_insert_eq |].
      split; [now rewrite lookup_insert_ne |].
      intros k Hk _. now rewrite lookup_insert_ne. }
    destruct (String.eqb_spec key "MemFree") as [-> | Hfree].
    { simpl. destruct (first (words val) ≫= int) as [n|e]; [| discriminate].
      simpl. intros Heq. injection Heq as <- <-. repeat split; auto; lia. }
    destruct (String.eqb_spec key "Buffers") as [-> | Hbuf].
    { simpl. destruct (first (words val) ≫= int) as [n|e]; [| discriminate].
      simpl. intros Heq. injection Heq as <- <-. repeat split; auto; lia. }
    destruct (String.eqb_spec key "Cached") as [-> | Hcached].
    { simpl. destruct (first (words val) ≫= int) as [n|e]; [| discriminate].
      simpl. intros Heq. injection Heq as <- <-. repeat split; auto; lia. }
    simpl.
    destruct (String.eqb_spec key "Active") as [-> | Hactive].
    { simpl. destruct (first (words val) ≫= int) as [n|e]; [| discriminate].
      simpl. intros Heq. injection Heq as <- <-.
      split; [lia |]. split; [now rewrite lookup_insert_ne |].
      split; [now rewrite lookup_insert_eq |].
      intros k _ Hk. now rewrite lookup_insert_ne. }
    simpl. intros Heq. injection Heq as <- <-. repeat split; auto; lia.
Qed.

(** The loop over the lines: the sum of the figures of the free counters,
    and the figures of the last MemTotal and Active lines. *)
Lemma meminfo_loop_spec data : forall result sum result' sum',
  meminfo_loop data result sum = Ok (result', sum') ->
  sum' = (sum + sum_Z (figures is_free_key data))%Z
  /\ result' !! "memory_total" = latest is_total_key data (result !! "memory_total")
  /\ result' !! "memory_dom0" = latest is_active_key data (result !! "memory_dom0")
  /\ (forall k, k <> "memory_total" -> k <> "memory_dom0" -> result' !! k = result !! k).
Proof.
  induction data as [|line data IH]; intros result sum result' sum' Hloop.
  - simpl in Hloop. injection Hloop as <- <-. unfold latest. simpl.
    repeat split; auto; lia.
  - simpl in Hloop. unfold mbind, result_bind in Hloop.
    destruct (meminfo_line line result sum) as [[r1 s1]|e] eqn:Hline; [| discriminate Hloop].
    apply meminfo_line_spec in Hline as (Hs1 & Ht1 & Ha1 & Hk1).
    apply IH in Hloop as (Hs & Ht & Ha & Hk).
    split; [rewrite (figures_cons is_free_key), sum_Z_app; lia |].
    split; [now rewrite latest_cons, <- Ht1 |].
    split; [now rewrite latest_cons, <- Ha1 |].
    intros k Hkt Hka. now rewrite Hk, Hk1.
Qed.

(** What [GetNodeInfo] does, source by source. It changes nothing on the
    host. *)
Lemma GetNodeInfo_run w :
  GetNodeInfo w =
  match files (os w) !! "/proc/meminfo" with
  | None =>
      (Raise (HypervisorError ("Failed to list node info: " +:+ strerror "/proc/meminfo")), w)
  | Some mem =>
      match meminfo_loop (readlines (f_data mem)) ∅ 0%Z with
      | Raise e => (Raise e, w)
      | Ok (result, sum_free) =>
          match files (os w) !! "/proc/cpuinfo" with
          | None =>
              (Raise (HypervisorError
                        ("Failed to list node info: " +:+ strerror "/proc/cpuinfo")), w)
          | Some cpu =>
              (Ok (<["cpu_total" := count_processors (f_data cpu)]>
                     (<["memory_free" := sum_free]> result)), w)
          end
      end
  end.
Proof.
  unfold GetNodeInfo. unfold_monad. simpl.
  destruct (files (os w) !! "/proc/meminfo") as [mem|].
  - destruct (meminfo_loop (readlines (f_data mem)) ∅ 0%Z) as [[result sum_free]|e];
      [| reflexivity].
    destruct (files (os w) !! "/proc/cpuinfo") as [cpu|]; [reflexivity |].
    simpl. now rewrite append_empty_r.
  - simpl. now rewrite append_empty_r.
Qed.

(** C6, as amended. [GetNodeInfo] fails with a [HypervisorError] when
    [/proc/meminfo] cannot be read, never returns values when
    [/proc/cpuinfo] cannot be read (a [HypervisorError] once the memory
    counters were parsed), and leaves the host as it was. When it returns,
    the mapping holds [memory_free], the sum of the whole-megabyte figures
    (counter divided by 1024, rounded down, counter by counter) of the
    MemFree, Buffers and Cached lines; [cpu_total]; [memory_total], the
    figure of the last MemTotal line, when there is one; and [memory_dom0]
    (not [memory_used]), the figure of the last Active line, when there is
    one. It holds no other key. *)
Theorem node_info w :
  (files (os w) !! "/proc/meminfo" = None ->
   GetNodeInfo w =
     (Raise (HypervisorError ("Failed to list node info: " +:+ strerror "/proc/meminfo")),
      w))
  /\ (files (os w) !! "/proc/cpuinfo" = None ->
      (exists e, GetNodeInfo w = (Raise e, w))
      /\ forall mem parsed,
           files (os w) !! "/proc/meminfo" = Some mem ->
           meminfo_loop (readlines (f_data mem)) ∅ 0%Z = Ok parsed ->
           GetNodeInfo w =
             (Raise (HypervisorError
                       ("Failed to list node info: " +:+ strerror "/proc/cpuinfo")), w))
  /\ (forall result, fst (GetNodeInfo w) = Ok result ->
      exists mem cpu,
        files (os w) !! "/proc/meminfo" = Some mem
        /\ files (os w) !! "/proc/cpuinfo" = Some cpu
        /\ GetNodeInfo w = (Ok result, w)
        /\ result !! "memory_total" = latest is_total_key (readlines (f_data mem)) None
        /\ result !! "memory_free"
             = Some (sum_Z (figures is_free_key (readlines (f_data mem))))
        /\ result !! "memory_dom0" = latest is_active_key (readlines (f_data mem)) None
        /\ result !! "cpu_total" = Some (count_processors (f_data cpu))
        /\ result !! "memory_used" = None
        /\ (forall key, is_Some (result !! key) ->
              key = "memory_total" \/ key = "memory_free"
              \/ key = "memory_dom0" \/ key = "cpu_total")).
Proof.
  pose proof (GetNodeInfo_run w) as Hrun.
  split; [| split].
  - intros Hmem. now rewrite Hmem in Hrun.
  - intros Hcpu. rewrite Hcpu in Hrun. split.
    + rewrite Hrun. destruct (files (os w) !! "/proc/meminfo") as [mem|]; [| eauto].
      destruct (meminfo_loop _ _ _) as [[r s]|e]; eauto.
    + intros mem [r s] Hmem Hloop. now rewrite Hmem, Hloop in Hrun.
  - intros result Hres. rewrite Hrun in Hres.
    destruct (files (os w) !! "/proc/meminfo") as [mem|]; [| discriminate Hres].
    destruct (meminfo_loop (readlines (f_data mem)) ∅ 0%Z) as [[r s]|e] eqn:Hloop;
      [| discriminate Hres].
    destruct (files (os w) !! "/proc/cpuinfo") as [cpu|]; [| discriminate Hres].
    simpl in Hres. injection Hres as <-.
    apply meminfo_loop_spec in Hloop as (Hs & Ht & Ha & Hk).
    rewrite lookup_empty in Ht, Ha.
    exists mem, cpu.
    split; [reflexivity |]. split; [reflexivity |]. split; [exact Hrun |].
    split; [now rewrite !lookup_insert_ne |].
    split; [rewrite lookup_insert_ne, lookup_insert_eq by done; f_equal; lia |].
    split; [now rewrite !lookup_insert_ne |].
    split; [now rewrite lookup_insert_eq |].
    split; [rewrite !lookup_insert_ne, Hk by done; apply lookup_empty |].
    intros key Hkey.
    destruct (decide (key = "cpu_total")) as [-> | Hc]; [now do 3 right |].
    destruct (decide (key = "memory_free")) as [-> | Hf]; [now right; left |].
    destruct (decide (key = "memory_total")) as [-> | Hmt]; [now left |].
    destruct (decide (key = "memory_dom0")) as [-> | Hd]; [now right; right; left |].
    rewrite !lookup_insert_ne, Hk, lookup_empty in Hkey by done.
    now destruct Hkey.
Qed.

End Properties.

(** * The driver on the concrete node *)

(** ** Python primitives on sample inputs *)

Example split_nul : split NUL ("kvm" +:+ String NUL "-m") = ["kvm"; "-m"].
Proof. reflexivity. Qed.

Example split1_colon :
  split1 ":" "MemTotal:  4194304 kB" = ["MemTotal"; "  4194304 kB"].
Proof. reflexivity. Qed.

Example words_kb : words "4194304 kB" = ["4194304"; "kB"].
Proof. reflexivity. Qed.

Example int_pidfile : int ("4242" +:+ nl) = Ok 4242%Z.
Proof. reflexivity. Qed.

Example int_not_a_number : exists e, int "12a" = Raise e.
Proof. eexists; reflexivity. Qed.

Example readlines_two : readlines ("a" +:+ nl +:+ "b") = ["a" +:+ nl; "b"].
Proof. reflexivity. Qed.

Example format_two :
  format "Failed to start instance %s: %s" ["web1"; "already running"]
  = Ok "Failed to start instance web1: already running".
Proof. reflexivity. Qed.

Example format_missing_argument :
  format "Failed to start instance %s: %s" ["web1"]
  = Raise (TypeError "not enough arguments for format string").
Proof. reflexivity. Qed.

(** ** Start, then query, on the good host *)

Example start_web1 :
  let run := @StartInstance Node.constants Node.good_host Node.web1 Node.disks VNone Node.fresh in
  fst run = Ok tt
  /\ trace (snd run) =
       [EvCreateFile "/tmp/tmp2"; EvCreateFile "/tmp/tmp3";
        EvRunCmd (Argv (Node.web1_cmd "/boot/vmlinuz-2.6-kvmU"));
        EvRemoveFile "/tmp/tmp2"; EvRemoveFile "/tmp/tmp3"]
  /\ @is_running Node.constants "web1" (os (snd run)) = true
  /\ fst (@GetInstanceInfo Node.constants "web1" (snd run))
     = Ok (Some ("web1", 4001%Z, VStr "512", VStr "2", "---b-", "0")).
Proof. vm_compute. repeat split; reflexivity. Qed.

(** ** C4 on the node where web1 runs *)

Lemma start_already_running_witness :
  @StartInstance Node.constants Node.good_host Node.web1 Node.disks VNone Node.running
    = (Raise (HypervisorError "Failed to start instance web1: already running"),
       Node.running)
  /\ effects (@StartInstance Node.constants Node.good_host Node.web1 Node.disks VNone)
       Node.running = [].
Proof.
  apply (@start_already_running Node.constants Node.good_host
           Node.web1 Node.disks VNone Node.running).
  vm_compute. reflexivity.
Defined.

(** ** C3 on the node where the monitor socket is deaf *)

Lemma stop_graceful_failure_witness :
  let stop := @StopInstance Node.constants Node.deaf_monitor_host Node.web1 false in
  stop Node.running
    = (Raise (HypervisorError "Failed to stop instance web1: exited with exit code 1"),
       {| os := Node.running_os;
          trace := [EvRunCmd (Shell (@powerdown_command Node.constants Node.web1))] |})
  /\ effects stop Node.running = [EvRunCmd (Shell (@powerdown_command Node.constants Node.web1))]
  /\ (forall pid, ~ In (EvKillProcess pid) (effects stop Node.running))
  /\ (forall path, ~ In (EvRemoveFile path) (effects stop Node.running)).
Proof.
  apply (@stop_graceful_failure Node.constants Node.deaf_monitor_host Node.web1
           Node.running (VBool true)
           (mkRunResult true "exited with exit code 1" "") Node.running_os);
    vm_compute; reflexivity.
Defined.

Section OnNode.
#[local] Existing Instance Node.constants.

(** ** C7 and C8 on the good host: web1 with two NICs and two disks *)

Lemma launch_specification_witness :
  let start := @StartInstance Node.constants Node.good_host Node.web1 Node.disks VNone in
  exists scripts at_launch rest memory vcpus acpi kernel initrd,
    beparams Node.web1 !! BE_MEMORY = Some memory
    /\ beparams Node.web1 !! BE_VCPUS = Some vcpus
    /\ hvparams Node.web1 !! HV_ACPI = Some acpi
    /\ hvparams Node.web1 !! HV_KERNEL_PATH = Some kernel
    /\ hvparams Node.web1 !! HV_INITRD_PATH = Some initrd
    /\ length scripts = length (nics Node.web1)
    /\ Node.web1_cmd "/boot/vmlinuz-2.6-kvmU"
       = launch_spec Node.web1 Node.disks scripts memory vcpus acpi kernel initrd
    /\ (nics Node.web1 = [] ->
        net_directives (nics Node.web1) scripts = [VStr "-net"; VStr "none"])
    /\ (nics Node.web1 <> [] ->
        net_directives (nics Node.web1) scripts
          = concat (zip_with nic_directives (nics Node.web1) scripts))
    /\ disk_directives Node.disks = concat (imap disk_directive Node.disks)
    /\ @build_kvm_cmd Node.constants Node.good_host Node.web1 Node.disks
         (pid_file_of (name Node.web1)) [] Node.fresh
         = (Ok (Node.web1_cmd "/boot/vmlinuz-2.6-kvmU", scripts), at_launch)
    /\ effects start Node.fresh
         = map EvCreateFile scripts
           ++ EvRunCmd (Argv (Node.web1_cmd "/boot/vmlinuz-2.6-kvmU")) :: rest
    /\ files (os at_launch)
         = with_scripts Node.web1 (nics Node.web1) scripts (files (os Node.fresh))
    /\ Forall (script_present (os at_launch)) scripts
    /\ (forall k script,
          scripts !! k = Some script ->
          exists j nic,
            (k <= j)%nat /\ nics Node.web1 !! j = Some nic
            /\ scripts !! j = Some script
            /\ wires Node.web1 (os at_launch) nic script)
    /\ (NoDup scripts ->
        forall k nic script,
          nics Node.web1 !! k = Some nic -> scripts !! k = Some script ->
          wires Node.web1 (os at_launch) nic script).
Proof.
  apply (@launch_specification Node.constants Node.good_host
           Node.web1 Node.disks VNone Node.fresh).
  vm_compute. right; right; left. reflexivity.
Defined.

Lemma wiring_scripts_witness :
  let start := @StartInstance Node.constants Node.good_host Node.web1 Node.disks VNone in
  exists scripts at_launch rest,
    length scripts = length (nics Node.web1)
    /\ @build_kvm_cmd Node.constants Node.good_host Node.web1 Node.disks
         (pid_file_of (name Node.web1)) [] Node.fresh
         = (Ok (Node.web1_cmd "/boot/vmlinuz-2.6-kvmU", scripts), at_launch)
    /\ trace at_launch = trace Node.fresh ++ map EvCreateFile scripts
    /\ Forall (script_present (os at_launch)) scripts
    /\ effects start Node.fresh
         = map EvCreateFile scripts
           ++ EvRunCmd (Argv (Node.web1_cmd "/boot/vmlinuz-2.6-kvmU")) :: rest
    /\ (fst (start Node.fresh) = Ok tt ->
        rest = map EvRemoveFile scripts
        /\ Forall (fun p => files (os (snd (start Node.fresh))) !! p = None) scripts).
Proof.
  apply (@wiring_scripts Node.constants Node.good_host
           Node.web1 Node.disks VNone Node.fresh).
  vm_compute. right; right; left. reflexivity.
Defined.

(** The scenario of the design, computed: two scripts before the launch,
    none left after it. *)
Example two_scripts_then_none :
  let run := @StartInstance Node.constants Node.good_host Node.web1 Node.disks VNone Node.fresh in
  files (os (snd run)) !! "/tmp/tmp2" = None
  /\ files (os (snd run)) !! "/tmp/tmp3" = None
  /\ net_directives (nics Node.web1) ["/tmp/tmp2"; "/tmp/tmp3"]
     = [VStr "-net"; VStr "nic,macaddr=aa:00:00:00:00:01,model=virtio";
        VStr "-net"; VStr "tap,script=/tmp/tmp2";
        VStr "-net"; VStr "nic,macaddr=aa:00:00:00:00:02,model=virtio";
        VStr "-net"; VStr "tap,script=/tmp/tmp3"]
  /\ disk_directives Node.disks
     = [VStr "-drive"; VStr "file=/dev/xenvg/web1-sda,format=raw,if=virtio,boot=on";
        VStr "-drive"; VStr "file=/dev/xenvg/web1-sdb,format=raw,if=virtio"].
Proof. vm_compute. repeat split; reflexivity. Qed.

(** ** C5: a kernel path that fails validation, and the launch all the same *)

(** web1 with the relative kernel path [vmlinuz], and web1 with no kernel
    path: the syntax check rejects both parameter mappings, yet on a node
    where the instance is not running [StartInstance] executes the launch
    command, the path as it is after [-kernel], and returns normally. *)
Lemma start_launches_unvalidated_kernel :
  @CheckParameterSyntax Node.constants Node.good_host (hvparams Node.web1_relative_kernel)
    = Raise (HypervisorError "The kernel path must an absolute path")
  /\ @CheckParameterSyntax Node.constants Node.good_host (hvparams Node.web1_no_kernel)
     = Raise (HypervisorError "Need a kernel for the instance")
  /\ In (EvRunCmd (Argv (Node.web1_cmd "vmlinuz")))
        (effects (@StartInstance Node.constants Node.good_host
                    Node.web1_relative_kernel Node.disks VNone) Node.fresh)
  /\ In (EvRunCmd (Argv (Node.web1_cmd "")))
        (effects (@StartInstance Node.constants Node.good_host
                    Node.web1_no_kernel Node.disks VNone) Node.fresh)
  /\ ~ (forall instance,
          (exists msg, @CheckParameterSyntax Node.constants Node.good_host
                         (hvparams instance) = Raise (HypervisorError msg)) ->
          forall cmd,
            ~ In (EvRunCmd cmd)
                 (effects (@StartInstance Node.constants Node.good_host
                             instance Node.disks VNone) Node.fresh)).
Proof.
  assert (Hsyntax : @CheckParameterSyntax Node.constants Node.good_host
                      (hvparams Node.web1_relative_kernel)
                    = Raise (HypervisorError "The kernel path must an absolute path"))
    by (vm_compute; reflexivity).
  assert (Hlaunch : In (EvRunCmd (Argv (Node.web1_cmd "vmlinuz")))
                       (effects (@StartInstance Node.constants Node.good_host
                                   Node.web1_relative_kernel Node.disks VNone) Node.fresh))
    by (vm_compute; right; right; left; reflexivity).
  split; [exact Hsyntax |].
  split; [vm_compute; reflexivity |].
  split; [exact Hlaunch |].
  split; [vm_compute; right; right; left; reflexivity |].
  intros Hclaim.
  apply (Hclaim Node.web1_relative_kernel (ex_intro _ _ Hsyntax) _ Hlaunch).
Qed.

Lemma start_does_not_validate_witness :
  exists scripts cmd before after,
    cmd = launch_spec Node.web1_relative_kernel Node.disks scripts
            (VInt 512) (VInt 2) (VBool true) (VStr "vmlinuz") (VStr "")
    /\ cmd = before ++ [VStr "-kernel"; VStr "vmlinuz"] ++ after
    /\ In (EvRunCmd (Argv cmd))
          (effects (@StartInstance Node.constants Node.good_host
                      Node.web1_relative_kernel Node.disks VNone) Node.fresh).
Proof.
  apply (@start_does_not_validate Node.constants Node.good_host
           Node.web1_relative_kernel Node.disks VNone Node.fresh
           (VInt 512) (VInt 2) (VBool true) (VStr "vmlinuz") (VStr "")).
  - vm_compute. reflexivity.
  - intros o. eexists. reflexivity.
  - vm_compute. reflexivity.
  - vm_compute. reflexivity.
  - vm_compute. reflexivity.
  - vm_compute. reflexivity.
  - vm_compute. reflexivity.
Defined.

(** ** C9: the kernel of web1 is absolute, and not on the fresh node *)

Lemma validation_phases_witness :
  @CheckParameterSyntax Node.constants Node.good_host (hvparams Node.web1) = Ok tt
  /\ @ValidateParameters Node.constants Node.good_host (hvparams Node.web1) Node.fresh
     = (Raise (HypervisorError
                 "Instance kernel '/boot/vmlinuz-2.6-kvmU' not found or not a file"),
        Node.fresh)
  /\ ((exists msg, @CheckParameterSyntax Node.constants Node.good_host
                     (hvparams Node.web1_relative_kernel) = Raise (HypervisorError msg))
      <-> (truthy (VStr "vmlinuz") = false \/ absolute (VStr "vmlinuz") = false
           \/ (truthy (VStr "") = true /\ absolute (VStr "") = false))).
Proof.
  split; [| split].
  - refine (proj1 (proj2 (proj2
      (@validation_phases Node.constants Node.good_host (hvparams Node.web1)
         (VStr "/boot/vmlinuz-2.6-kvmU") (VStr "") _ _ _ _ _))
      Node.fresh "/boot/vmlinuz-2.6-kvmU" _ _ _ _ _));
      try (vm_compute; reflexivity); try (right; eexists; reflexivity).
    left. reflexivity.
  - refine (proj2 (proj2 (proj2
      (@validation_phases Node.constants Node.good_host (hvparams Node.web1)
         (VStr "/boot/vmlinuz-2.6-kvmU") (VStr "") _ _ _ _ _))
      Node.fresh "/boot/vmlinuz-2.6-kvmU" _ _ _ _ _));
      try (vm_compute; reflexivity); try (right; eexists; reflexivity).
    left. reflexivity.
  - refine (proj1
      (@validation_phases Node.constants Node.good_host
         (hvparams Node.web1_relative_kernel) (VStr "vmlinuz") (VStr "") _ _ _ _ _));
      try (vm_compute; reflexivity); right; eexists; reflexivity.
Defined.

(** ** C10 on the node where web1 runs *)

Lemma instance_info_sizing_witness :
  (exists memory vcpus,
     GetInstanceInfo "web1" Node.running
       = (Ok (Some ("web1", 4242%Z, memory, vcpus, "---b-", "0")), Node.running))
  /\ fst (GetInstanceInfo "web1" Node.running)
     = Ok (Some ("web1", 4242%Z, VStr "512", VStr "2", "---b-", "0")).
Proof.
  split.
  - refine (proj1 (proj2
      (@instance_info_sizing Node.constants "web1" Node.running Node.running_cmdline _ _)) _);
      vm_compute; reflexivity.
  - vm_compute. reflexivity.
Defined.

(** A process with no sizing flag on its command line: both fields are
    the integer 0. *)
Example info_without_flags :
  let o := {| files := files Node.running_os;
              procs := <[4242%Z := Cmdline (Node.proc_cmdline ["/bin/sleep"; "60"])]> ∅ |} in
  fst (GetInstanceInfo "web1" {| os := o; trace := [] |})
  = Ok (Some ("web1", 4242%Z, VInt 0, VInt 0, "---b-", "0")).
Proof. vm_compute. reflexivity. Qed.

(** ** C6 on the fresh node: 4096 MiB in total, 512 + 256 + 256 MiB free *)

(** The mapping [GetNodeInfo] returns there has the key [memory_dom0] and
    no key [memory_used]: its keys are not the four of the claim. *)
Lemma node_info_has_no_memory_used :
  exists result,
    @GetNodeInfo Node.good_host Node.fresh = (Ok result, Node.fresh)
    /\ result !! "memory_total" = Some 4096%Z
    /\ result !! "memory_free" = Some 1024%Z
    /\ result !! "cpu_total" = Some 2%Z
    /\ result !! "memory_dom0" = Some 1024%Z
    /\ result !! "memory_used" = None
    /\ dom result <> ({[ "memory_total"; "memory_free"; "memory_used"; "cpu_total" ]}
                        : gset string).
Proof.
  eexists. split; [vm_compute; reflexivity |].
  repeat (split; [vm_compute; reflexivity |]).
  intros Hdom.
  assert (Hin : "memory_used" ∈
                ({[ "memory_total"; "memory_free"; "memory_used"; "cpu_total" ]}
                   : gset string)) by set_solver.
  rewrite <- Hdom in Hin. apply elem_of_dom in Hin as [x Hx].
  vm_compute in Hx. discriminate Hx.
Qed.

Lemma node_info_witness :
  exists result mem cpu,
    files (os Node.fresh) !! "/proc/meminfo" = Some mem
    /\ files (os Node.fresh) !! "/proc/cpuinfo" = Some cpu
    /\ @GetNodeInfo Node.good_host Node.fresh = (Ok result, Node.fresh)
    /\ result !! "memory_total" = latest is_total_key (readlines (f_data mem)) None
    /\ result !! "memory_free" = Some (sum_Z (figures is_free_key (readlines (f_data mem))))
    /\ result !! "memory_dom0" = latest is_active_key (readlines (f_data mem)) None
    /\ result !! "cpu_total" = Some (@count_processors Node.good_host (f_data cpu))
    /\ result !! "memory_used" = None
    /\ (forall key, is_Some (result !! key) ->
          key = "memory_total" \/ key = "memory_free"
          \/ key = "memory_dom0" \/ key = "cpu_total").
Proof.
  eexists.
  refine (proj2 (proj2 (@node_info Node.good_host Node.fresh)) _ _).
  vm_compute. reflexivity.
Defined.

(** An accounting file with fractions of megabytes: each counter is
    rounded down before the sum, so 1023 kB three times gives 0 MiB free. *)
Example free_is_a_sum_of_floors :
  let mem := "MemTotal: 4194304 kB" +:+ nl +:+ "MemFree: 1023 kB" +:+ nl +:+
             "Buffers: 1023 kB" +:+ nl +:+ "Cached: 1023 kB" +:+ nl in
  let o := {| files := <["/proc/meminfo" := File mem 292]> (files Node.fresh_os);
              procs := ∅ |} in
  exists result,
    fst (@GetNodeInfo Node.good_host {| os := o; trace := [] |}) = Ok result
    /\ result !! "memory_free" = Some 0%Z
    /\ result !! "memory_dom0" = None.
Proof. eexists. vm_compute. repeat split; reflexivity. Qed.

(** ** C1: RebootInstance against StopInstance followed by StartInstance *)

(** C1 (the code departs from it). On the fresh node, stopping web1 and
    then starting it with its block devices leaves it running; rebooting it
    raises a [TypeError] from the call of [StartInstance] with the instance
    alone, launches nothing, and leaves web1 not running. On the node
    where web1 runs, the reboot delivers the power-down command and raises
    in the same way. On no host and for no instance does [RebootInstance]
    return normally. *)
Theorem reboot_raises_TypeError :
  let stop_then_start :=
    (@StopInstance Node.constants Node.good_host Node.web1 false;;
     @StartInstance Node.constants Node.good_host Node.web1 Node.disks VNone) in
  let reboot := @RebootInstance Node.constants Node.good_host Node.web1 in
  fst (stop_then_start Node.fresh) = Ok tt
  /\ is_running "web1" (os (snd (stop_then_start Node.fresh))) = true
  /\ fst (reboot Node.fresh)
     = Raise (TypeError "StartInstance() takes exactly 4 arguments (2 given)")
  /\ is_running "web1" (os (snd (reboot Node.fresh))) = false
  /\ (forall cmd, ~ In (EvRunCmd (Argv cmd)) (effects reboot Node.fresh))
  /\ reboot Node.running
     = (Raise (TypeError "StartInstance() takes exactly 4 arguments (2 given)"),
        {| os := Node.running_os;
           trace := [EvRunCmd (Shell (powerdown_command Node.web1))] |})
  /\ (forall (C : Constants) (H : Host) instance w,
        exists e, fst (@RebootInstance C H instance w) = Raise e).
Proof.
  split; [vm_compute; reflexivity |].
  split; [vm_compute; reflexivity |].
  split; [vm_compute; reflexivity |].
  split; [vm_compute; reflexivity |].
  split.
  { intros cmd Hin. vm_compute in Hin. destruct Hin as [Hin | []]. discriminate Hin. }
  split; [vm_compute; reflexivity |].
  intros C H instance w. apply reboot_is_stop_then_TypeError.
Qed.

(** ** C2: the post-launch check on the host where the daemon dies *)

(** C2 (the code departs from it). The launcher of web1 reports success
    and no hypervisor process is left: [StartInstance] raises a
    [TypeError], not a [HypervisorError], after it has run the launch
    command; the two scripts stay on the host. *)
Theorem unverified_launch_raises_TypeError :
  let start :=
    @StartInstance Node.constants Node.dying_daemon_host Node.web1 Node.disks VNone in
  fst (start Node.fresh) = Raise (TypeError "not enough arguments for format string")
  /\ effects start Node.fresh
     = [EvCreateFile "/tmp/tmp2"; EvCreateFile "/tmp/tmp3";
        EvRunCmd (Argv (Node.web1_cmd "/boot/vmlinuz-2.6-kvmU"))]
  /\ failed (fst (@run_cmd Node.dying_daemon_host
                    (Argv (Node.web1_cmd "/boot/vmlinuz-2.6-kvmU")) Node.fresh_os)) = false
  /\ is_running "web1" (os (snd (start Node.fresh))) = false
  /\ (forall msg, fst (start Node.fresh) <> Raise (HypervisorError msg)).
Proof.
  split; [vm_compute; reflexivity |].
  split; [vm_compute; reflexivity |].
  split; [vm_compute; reflexivity |].
  split; [vm_compute; reflexivity |].
  intros msg Heq. vm_compute in Heq. discriminate Heq.
Qed.

End OnNode.

(** * Further properties of the driver *)

Section StopProperties.
Context `{!Constants} `{!Host}.

(** ** StopInstance, path by path *)

(** The end of [StopInstance]: the PID file goes when the process whose
    pid was read at the start is not alive. *)
Lemma stop_finish_run instance pid w :
  (alive ← IsProcessAlive pid;
   if negb alive then RemoveFile (_PIDS_DIR +:+ "/" +:+ name instance) else mret tt) w
  = (Ok tt, if process_alive pid (os w) then w
            else after_remove (pid_file_of (name instance)) w).
Proof.
  unfold RemoveFile. unfold_monad. simpl.
  destruct (process_alive pid (os w)); simpl; [| reflexivity].
  now destruct w.
Qed.

Lemma is_running_positive instance_name o :
  is_running instance_name o = true ->
  (0 <? read_pid_file (pid_file_of instance_name) o)%Z = true.
Proof. intros Hrun. apply Z.ltb_lt. exact (process_alive_positive _ _ Hrun). Qed.

(** X1. Stopping an instance that is not running (no PID file, a PID file
    that holds no number, or a stale one) succeeds whatever [force] is:
    the only thing the driver does is to remove the PID file; no process
    is killed, no command is run, and afterwards the file is absent and
    the instance is still not running. *)
Theorem stop_not_running instance force w :
  is_running (name instance) (os w) = false ->
  StopInstance instance force w = (Ok tt, after_remove (pid_file_of (name instance)) w)
  /\ effects (StopInstance instance force) w = [EvRemoveFile (pid_file_of (name instance))]
  /\ files (os (snd (StopInstance instance force w))) !! pid_file_of (name instance) = None
  /\ procs (os (snd (StopInstance instance force w))) = procs (os w)
  /\ is_running (name instance) (os (snd (StopInstance instance force w))) = false.
Proof.
  intros Hrun.
  assert (Hstop : StopInstance instance force w
                  = (Ok tt, after_remove (pid_file_of (name instance)) w)).
  { unfold is_running in Hrun. unfold pid_file_of in *.
    unfold StopInstance, RemoveFile. unfold_monad. simpl.
    destruct (0 <? read_pid_file (_PIDS_DIR +:+ "/" +:+ name instance) (os w))%Z;
      simpl; rewrite ?Hrun; simpl; rewrite ?Hrun; reflexivity. }
  split; [exact Hstop |].
  split; [apply effects_of_trace; now rewrite Hstop |].
  rewrite Hstop. simpl.
  split; [apply lookup_delete_eq |]. split; [reflexivity |].
  unfold is_running, read_pid_file. simpl. rewrite lookup_delete_eq. reflexivity.
Qed.

(** X2. A forced stop of a running instance kills the process named by
    the PID file and runs no command. When the process is gone after the
    kill, the PID file is removed and the instance is no longer running;
    when the kill did not end it, the PID file stays. Either way the stop
    returns normally. *)
Theorem stop_forced instance w :
  is_running (name instance) (os w) = true ->
  let pid := read_pid_file (pid_file_of (name instance)) (os w) in
  let killed := after_kill pid w in
  StopInstance instance true w
    = (Ok tt, if process_alive pid (os killed) then killed
              else after_remove (pid_file_of (name instance)) killed)
  /\ (forall cmd, ~ In (EvRunCmd cmd) (effects (StopInstance instance true) w))
  /\ (process_alive pid (os killed) = false ->
      files (os (snd (StopInstance instance true w))) !! pid_file_of (name instance) = None
      /\ is_running (name instance) (os (snd (StopInstance instance true w))) = false).
Proof.
  intros Hrun pid killed.
  assert (Hstop : StopInstance instance true w
    = (Ok tt, if process_alive pid (os killed) then killed
              else after_remove (pid_file_of (name instance)) killed)).
  { pose proof (is_running_positive _ _ Hrun) as Hpos.
    unfold is_running in Hrun. unfold pid_file_of in *.
    unfold StopInstance, KillProcess, RemoveFile. unfold_monad. simpl.
    rewrite Hpos, Hrun. simpl.
    subst killed pid. unfold after_kill, pid_file_of. simpl.
    destruct (process_alive _ (kill_process _ (os w))); reflexivity. }
  split; [exact Hstop |]. split.
  - intros cmd Hin.
    rewrite (effects_of_trace _ w
               (if process_alive pid (os killed) then [EvKillProcess pid]
                else [EvKillProcess pid; EvRemoveFile (pid_file_of (name instance))]))
      in Hin.
    + destruct (process_alive pid (os killed)); simpl in Hin;
        repeat (destruct Hin as [Hin | Hin]; [discriminate Hin |]); exact Hin.
    + rewrite Hstop. destruct (process_alive pid (os killed)); simpl;
        [reflexivity | now rewrite <- app_assoc].
  - intros Hdead. rewrite Hstop, Hdead. simpl.
    split; [apply lookup_delete_eq |].
    unfold is_running, read_pid_file. simpl. rewrite lookup_delete_eq. reflexivity.
Qed.

(** X3. With the ACPI parameter disabled, a stop that is not forced is
    the forced stop: same result, same final host, same effects. *)
Theorem stop_without_acpi_is_forced instance w acpi :
  hvparams instance !! HV_ACPI = Some acpi ->
  truthy acpi = false ->
  StopInstance instance false w = StopInstance instance true w.
Proof.
  intros Hacpi Hfalse.
  unfold StopInstance, getitem. unfold_monad. simpl.
  destruct (0 <? read_pid_file (_PIDS_DIR +:+ "/" +:+ name instance) (os w))%Z;
    simpl; [| reflexivity].
  destruct (process_alive (read_pid_file (_PIDS_DIR +:+ "/" +:+ name instance) (os w))
              (os w)); simpl; [| reflexivity].
  rewrite Hacpi. simpl. rewrite Hfalse. reflexivity.
Qed.

(** X4. A stop that is not forced, on a running instance with ACPI
    enabled, whose power-down command is delivered: the driver kills
    nothing and returns normally at once. The PID file is removed only if
    the process is already gone when the command returns; while the guest
    is still shutting down the file stays. *)
Theorem stop_graceful_delivered instance w acpi res o1 :
  is_running (name instance) (os w) = true ->
  hvparams instance !! HV_ACPI = Some acpi ->
  truthy acpi = true ->
  run_cmd (Shell (powerdown_command instance)) (os w) = (res, o1) ->
  failed res = false ->
  let pid := read_pid_file (pid_file_of (name instance)) (os w) in
  let asked := after_run (Shell (powerdown_command instance)) o1 w in
  StopInstance instance false w
    = (Ok tt, if process_alive pid o1 then asked
              else after_remove (pid_file_of (name instance)) asked)
  /\ (forall p, ~ In (EvKillProcess p) (effects (StopInstance instance false) w)).
Proof.
  intros Hrun Hacpi Htrue Hcmd Hfail pid asked.
  assert (Hstop : StopInstance instance false w
    = (Ok tt, if process_alive pid o1 then asked
              else after_remove (pid_file_of (name instance)) asked)).
  { pose proof (is_running_positive _ _ Hrun) as Hpos.
    unfold is_running in Hrun. unfold pid_file_of in *.
    unfold StopInstance, RunCmd, RemoveFile, getitem. unfold_monad. simpl.
    rewrite Hpos, Hrun, Hacpi, Htrue. simpl.
    change ("echo 'system_powerdown' | " +:+ "socat -u STDIN UNIX-CONNECT:" +:+
            _CTRL_DIR +:+ "/" +:+ name instance +:+ ".monitor")
      with (powerdown_command instance).
    rewrite Hcmd, Hfail. simpl.
    subst asked pid. unfold after_run, pid_file_of. simpl.
    destruct (process_alive _ o1); reflexivity. }
  split; [exact Hstop |].
  intros p Hin.
  rewrite (effects_of_trace _ w
             (if process_alive pid o1
              then [EvRunCmd (Shell (powerdown_command instance))]
              else [EvRunCmd (Shell (powerdown_command instance));
                    EvRemoveFile (pid_file_of (name instance))])) in Hin.
  - destruct (process_alive pid o1); simpl in Hin;
      repeat (destruct Hin as [Hin | Hin]; [discriminate Hin |]); exact Hin.
  - rewrite Hstop. destruct (process_alive pid o1); simpl;
      [reflexivity | now rewrite <- app_assoc].
Qed.

(** X5. A stop that is not forced, on a running instance whose
    hypervisor parameters lack the ACPI entry, raises [KeyError] and does
    nothing at all. *)
Theorem stop_missing_acpi instance w :
  is_running (name instance) (os w) = true ->
  hvparams instance !! HV_ACPI = None ->
  StopInstance instance false w = (Raise (KeyError HV_ACPI), w).
Proof.
  intros Hrun Hnone.
  pose proof (is_running_positive _ _ Hrun) as Hpos.
  unfold is_running in Hrun. unfold pid_file_of in *.
  unfold StopInstance, getitem. unfold_monad. simpl.
  rewrite Hpos, Hrun, Hnone. reflexivity.
Qed.

End StopProperties.

Section QueryProperties.
Context `{!Constants}.

(** ** GetInstanceInfo: absent instances, and what makes it fail *)

(** [GetInstanceInfo] only reads the host. *)
Lemma GetInstanceInfo_readonly instance_name w :
  snd (GetInstanceInfo instance_name w) = w.
Proof.
  unfold GetInstanceInfo. unfold_monad. simpl.
  destruct (process_alive _ (os w)); simpl; [| reflexivity].
  destruct (procs (os w) !! _) as [[err | cmdline] |]; simpl; try reflexivity.
  destruct (scan_args _ _ _) as [[m v] | e]; reflexivity.
Qed.

(** X6. [GetInstanceInfo] never changes the host, and it answers [None]
    exactly for the instances that are not running: for a running one it
    returns a tuple or raises, it never answers [None]. *)
Theorem info_none_iff_not_running instance_name w :
  snd (GetInstanceInfo instance_name w) = w
  /\ (fst (GetInstanceInfo instance_name w) = Ok None
      <-> is_running instance_name (os w) = false).
Proof.
  split; [apply GetInstanceInfo_readonly |].
  unfold is_running, pid_file_of, GetInstanceInfo. unfold_monad. simpl.
  destruct (process_alive _ (os w)); simpl.
  - split; [| discriminate].
    destruct (procs (os w) !! _) as [[err | cmdline] |]; simpl; try discriminate.
    destruct (scan_args _ _ _) as [[m v] | e]; discriminate.
  - split; reflexivity.
Qed.

(** X7. When the command line of a running instance cannot be read,
    [GetInstanceInfo] raises a [HypervisorError] that names the instance
    and carries the text of the I/O error. *)
Theorem info_unreadable_cmdline instance_name w err :
  is_running instance_name (os w) = true ->
  procs (os w) !! read_pid_file (pid_file_of instance_name) (os w)
    = Some (CmdlineError err) ->
  GetInstanceInfo instance_name w
    = (Raise (HypervisorError ("Failed to list instance " +:+ instance_name +:+ ": " +:+ err)),
       w).
Proof.
  intros Hrun Herr. unfold is_running, pid_file_of in *.
  unfold GetInstanceInfo. unfold_monad. simpl. rewrite Hrun. simpl. rewrite Herr.
  simpl. now rewrite append_empty_r.
Qed.

(** Whether the scan of the arguments fails does not depend on the values
    it starts from. *)
Lemma scan_args_failure_indep : forall n args m v m2 v2 e,
  (length args <= n)%nat ->
  scan_args args m v = Raise e -> scan_args args m2 v2 = Raise e.
Proof.
  induction n as [|n IH]; intros args m v m2 v2 e Hlen Hscan.
  - destruct args; [discriminate Hscan | simpl in Hlen; lia].
  - destruct args as [|arg rest]; [discriminate Hscan |].
    simpl in Hlen, Hscan |- *.
    destruct (String.eqb arg "-m").
    + destruct rest as [|s rest]; [exact Hscan |].
      simpl in Hlen. eapply IH; [lia | exact Hscan].
    + destruct (String.eqb arg "-smp").
      * destruct rest as [|s rest]; [exact Hscan |].
        simpl in Hlen. eapply IH; [lia | exact Hscan].
      * eapply IH; [lia | exact Hscan].
Qed.

Lemma scan_args_success_indep args m v m2 v2 r :
  scan_args args m v = Ok r -> exists r2, scan_args args m2 v2 = Ok r2.
Proof.
  intros Hok. destruct (scan_args args m2 v2) as [r2 | e] eqn:Hscan; [eauto |].
  rewrite (scan_args_failure_indep _ _ _ _ m v e (le_n _) Hscan) in Hok.
  discriminate Hok.
Qed.

(** The scan fails exactly on the argument lists that end with a sizing
    flag read in flag position, and then with [IndexError]. *)
Lemma scan_args_fails_iff : forall n args m v,
  (length args <= n)%nat ->
  ((exists e, scan_args args m v = Raise e)
   <-> exists before flag,
         args = before ++ [flag] /\ whole_groups before /\ sizing_flag flag)
  /\ (forall e, scan_args args m v = Raise e -> e = IndexError "pop from empty list").
Proof.
  intros n args m v Hlen. split; [split |].
  - revert args m v Hlen.
    induction n as [|n IH]; intros args m v Hlen [e Hscan].
    { destruct args; [discriminate Hscan | simpl in Hlen; lia]. }
    destruct args as [|arg rest]; [discriminate Hscan |].
    simpl in Hlen, Hscan.
    destruct (String.eqb_spec arg "-m") as [-> | Hm].
    + destruct rest as [|s rest].
      * exists [], "-m". split; [reflexivity |]. split; [| now left].
        exists (VInt 0), (VInt 0). reflexivity.
      * simpl in Hlen.
        destruct (IH rest (VStr s) v ltac:(lia) (ex_intro _ e Hscan))
          as (before & flag & -> & [m0 [v0 Hwhole]] & Hflag).
        exists ("-m" :: s :: before), flag. split; [reflexivity |]. split; [| exact Hflag].
        destruct (scan_args_success_indep before _ _ (VStr s) (VInt 0) _ Hwhole) as [[m1 v1] H1].
        exists m1, v1. exact H1.
    + destruct (String.eqb_spec arg "-smp") as [-> | Hs].
      * destruct rest as [|s rest].
        -- exists [], "-smp". split; [reflexivity |]. split; [| now right].
           exists (VInt 0), (VInt 0). reflexivity.
        -- simpl in Hlen.
           destruct (IH rest m (VStr s) ltac:(lia) (ex_intro _ e Hscan))
             as (before & flag & -> & [m0 [v0 Hwhole]] & Hflag).
           exists ("-smp" :: s :: before), flag. split; [reflexivity |].
           split; [| exact Hflag].
           destruct (scan_args_success_indep before _ _ (VInt 0) (VStr s) _ Hwhole)
             as [[m1 v1] H1].
           exists m1, v1. exact H1.
      * destruct (IH rest m v ltac:(lia) (ex_intro _ e Hscan))
          as (before & flag & -> & [m0 [v0 Hwhole]] & Hflag).
        exists (arg :: before), flag. split; [reflexivity |]. split; [| exact Hflag].
        exists m0, v0. simpl.
        destruct (String.eqb_spec arg "-m"); [contradiction |].
        destruct (String.eqb_spec arg "-smp"); [contradiction |]. exact Hwhole.
  - intros (before & flag & -> & [m0 [v0 Hwhole]] & Hflag).
    destruct (scan_args_success_indep before _ _ m v _ Hwhole) as [[m1 v1] H1].
    rewrite (scan_args_app _ _ _ _ _ _ _ (le_n _) H1).
    destruct Hflag as [-> | ->]; simpl; eauto.
  - intros e Hscan.
    pose proof (scan_args_facts (length args) args m v (le_n _)) as Hf.
    rewrite Hscan in Hf. now destruct Hf.
Qed.

(** X8. For a running instance whose command line can be read,
    [GetInstanceInfo] raises exactly when the arguments end with [-m] or
    [-smp] read in flag position (the flag has no value to pop); what it
    raises then is an [IndexError], not a [HypervisorError]. *)
Theorem info_fails_iff_dangling_flag instance_name w cmdline :
  is_running instance_name (os w) = true ->
  procs (os w) !! read_pid_file (pid_file_of instance_name) (os w) = Some (Cmdline cmdline) ->
  ((exists e, fst (GetInstanceInfo instance_name w) = Raise e)
   <-> exists before flag,
         split NUL cmdline = before ++ [flag]
         /\ whole_groups before /\ sizing_flag flag)
  /\ (forall e, fst (GetInstanceInfo instance_name w) = Raise e ->
      e = IndexError "pop from empty list").
Proof.
  intros Hrun Hcmd.
  rewrite (GetInstanceInfo_live instance_name w cmdline Hrun Hcmd).
  destruct (scan_args_fails_iff (length (split NUL cmdline)) (split NUL cmdline)
              (VInt 0) (VInt 0) (le_n _)) as [Hiff Hkind].
  destruct (scan_args (split NUL cmdline) (VInt 0) (VInt 0)) as [[m v] | e0] eqn:Hscan.
  - split.
    + rewrite <- Hiff. split; intros [e He]; discriminate He.
    + intros e He. discriminate He.
  - split.
    + rewrite <- Hiff. split; intros _; eauto.
    + intros e He. simpl in He. injection He as <-. now apply Hkind.
Qed.

End QueryProperties.

(** ** Strings and directory entries *)

Lemma append_assoc (a b c : string) : (a +:+ b) +:+ c = a +:+ b +:+ c.
Proof.
  induction a as [|x a IH]; [reflexivity |].
  change (String x ((a +:+ b) +:+ c) = String x (a +:+ b +:+ c)). now rewrite IH.
Qed.

Lemma strip_prefix_append p n : strip_prefix p (p +:+ n) = Some n.
Proof.
  induction p as [|c p IH]; [reflexivity |].
  change (strip_prefix (String c p) (String c (p +:+ n)) = Some n).
  simpl. now rewrite Ascii.eqb_refl.
Qed.

Lemma strip_prefix_Some p : forall s n, strip_prefix p s = Some n -> s = p +:+ n.
Proof.
  induction p as [|c p IH]; intros s n Hs.
  - simpl in Hs. now injection Hs as ->.
  - destruct s as [|d s]; [discriminate Hs |]. simpl in Hs.
    destruct (Ascii.eqb_spec c d) as [-> | _]; [| discriminate Hs].
    apply IH in Hs as ->. reflexivity.
Qed.

(** An entry name is read off a path exactly when the path is that of the
    entry in the directory. *)
Lemma entry_name_Some dir path n :
  entry_name dir path = Some n <-> path = dir +:+ "/" +:+ n /\ entry_like n = true.
Proof.
  unfold entry_name. split.
  - destruct (strip_prefix (dir +:+ "/") path) as [n'|] eqn:Hs; [| discriminate].
    destruct (entry_like n') eqn:Hl; [| discriminate].
    intros Heq. injection Heq as <-.
    apply strip_prefix_Some in Hs. rewrite append_assoc in Hs. auto.
  - intros [-> Hl]. rewrite <- append_assoc, strip_prefix_append, Hl. reflexivity.
Qed.

(** The listing of a directory holds the names of its files, each once. *)
Lemma os_listdir_spec dir o n :
  n ∈ os_listdir dir o
  <-> entry_like n = true /\ is_Some (files o !! (dir +:+ "/" +:+ n)).
Proof.
  unfold os_listdir. rewrite list_elem_of_omap. split.
  - intros ([path f] & Hin & Hname). simpl in Hname.
    apply entry_name_Some in Hname as [-> Hl].
    apply elem_of_map_to_list in Hin. split; [exact Hl | eauto].
  - intros [Hl [f Hf]]. exists (dir +:+ "/" +:+ n, f). split.
    + now apply elem_of_map_to_list.
    + simpl. now apply entry_name_Some.
Qed.

Lemma NoDup_omap_inj {A B} (f : A -> option B) (l : list A) :
  NoDup l ->
  (forall x y z, x ∈ l -> y ∈ l -> f x = Some z -> f y = Some z -> x = y) ->
  NoDup (omap f l).
Proof.
  induction 1 as [|x l Hx Hnd IH]; intros Hinj; [constructor |].
  simpl. destruct (f x) as [z|] eqn:Hfx.
  - constructor.
    + intros Hin. apply list_elem_of_omap in Hin as (y & Hy & Hfy).
      assert (x = y) as -> by (eapply Hinj; eauto; [left | now right]).
      contradiction.
    + apply IH. intros a b c Ha Hb. apply Hinj; now right.
  - apply IH. intros a b c Ha Hb. apply Hinj; now right.
Qed.

Lemma os_listdir_NoDup dir o : NoDup (os_listdir dir o).
Proof.
  unfold os_listdir. apply NoDup_omap_inj; [apply NoDup_map_to_list |].
  intros [p1 f1] [p2 f2] n H1 H2 Hn1 Hn2. simpl in *.
  apply entry_name_Some in Hn1 as [-> _]. apply entry_name_Some in Hn2 as [-> _].
  apply elem_of_map_to_list in H1, H2. rewrite H1 in H2. now injection H2 as ->.
Qed.

Section ListingProperties.
Context `{!Constants}.

(** ** ListInstances and GetAllInstancesInfo *)

Lemma list_loop_run names : forall result w,
  list_loop names result w
  = (Ok (result ++ filter (fun n => is_running n (os w) = true) names), w).
Proof.
  induction names as [|n names IH]; intros result w.
  - simpl. now rewrite app_nil_r.
  - simpl. unfold_monad. simpl. rewrite IH.
    change (process_alive (read_pid_file (_PIDS_DIR +:+ "/" +:+ n) (os w)) (os w))
      with (is_running n (os w)).
    destruct (is_running n (os w)) eqn:Hrun.
    + rewrite filter_cons_True by exact Hrun. now rewrite <- app_assoc.
    + rewrite filter_cons_False; [reflexivity |]. rewrite Hrun. discriminate.
Qed.

Lemma is_running_has_pid_file instance_name o :
  is_running instance_name o = true -> is_Some (files o !! pid_file_of instance_name).
Proof.
  intros Hrun. apply process_alive_positive in Hrun.
  unfold read_pid_file in Hrun.
  destruct (files o !! pid_file_of instance_name); [eauto | lia].
Qed.

(** X9. [ListInstances] only reads the host and returns, each once, the
    names of the entries of the PID directory whose PID file names a live
    process: an instance is listed exactly when its name can be a
    directory entry and it is running. Entries with a dead or unreadable
    pid are left out. *)
Theorem list_instances_running w :
  exists names,
    ListInstances w = (Ok names, w)
    /\ NoDup names
    /\ (forall n, n ∈ names <-> entry_like n = true /\ is_running n (os w) = true).
Proof.
  exists (filter (fun n => is_running n (os w) = true) (os_listdir _PIDS_DIR (os w))).
  split; [| split].
  - unfold ListInstances. unfold_monad. simpl. now rewrite list_loop_run.
  - apply NoDup_filter, os_listdir_NoDup.
  - intros n. rewrite list_elem_of_filter, os_listdir_spec. split.
    + intros (Hrun & Hl & _). auto.
    + intros [Hl Hrun]. split; [exact Hrun |]. split; [exact Hl |].
      now apply is_running_has_pid_file.
Qed.

End ListingProperties.

Section AllInfoProperties.
Context `{!Constants}.

Lemma collect_Ok {A B} (f : A -> result B) (l : list A) : forall ys,
  collect f l = Ok ys <-> Forall2 (fun x y => f x = Ok y) l ys.
Proof.
  induction l as [|x l IH]; intros ys; simpl.
  - split.
    + intros Heq. injection Heq as <-. constructor.
    + intros Hall. inversion Hall. reflexivity.
  - split.
    + destruct (f x) as [y|e] eqn:Hfx; [| discriminate].
      destruct (collect f l) as [k|e] eqn:Hm; [| discriminate].
      intros Heq. injection Heq as <-. constructor; [exact Hfx | now apply IH].
    + intros Hall. inversion Hall as [|x' y l' k Hfx Hrest]; subst.
      rewrite Hfx. apply IH in Hrest. now rewrite Hrest.
Qed.

Lemma collect_Raise {A B} (f : A -> result B) (l : list A) :
  (exists e, collect f l = Raise e) <-> exists x, x ∈ l /\ exists e, f x = Raise e.
Proof.
  induction l as [|x l IH]; simpl.
  - split; [intros [e He]; discriminate He |].
    intros (x & Hx & _). now apply not_elem_of_nil in Hx.
  - destruct (f x) as [y|e] eqn:Hfx.
    + destruct (collect f l) as [k|e] eqn:Hm.
      * split; [intros [e He]; discriminate He |].
        intros (x' & Hx' & e & He). apply elem_of_cons in Hx' as [-> | Hx'].
        -- rewrite Hfx in He. discriminate He.
        -- destruct (proj2 IH (ex_intro _ x' (conj Hx' (ex_intro _ e He)))) as [e' He'].
           discriminate He'.
      * split; [| eauto]. intros _.
        destruct (proj1 IH (ex_intro _ e eq_refl)) as (x' & Hx' & He').
        exists x'. split; [now right | exact He'].
    + split; [| eauto]. intros _. exists x. split; [now left | eauto].
Qed.

Lemma info_loop_run names : forall data w,
  info_loop names data w
  = match collect (fun n => fst (GetInstanceInfo n w))
                (filter (fun n => is_running n (os w) = true) names) with
    | Ok infos => (Ok (data ++ infos), w)
    | Raise e => (Raise e, w)
    end.
Proof.
  induction names as [|n names IH]; intros data w.
  - simpl. now rewrite app_nil_r.
  - simpl. unfold_monad. simpl.
    change (process_alive (read_pid_file (_PIDS_DIR +:+ "/" +:+ n) (os w)) (os w))
      with (is_running n (os w)).
    destruct (is_running n (os w)) eqn:Hrun.
    + rewrite filter_cons_True by exact Hrun. simpl.
      pose proof (GetInstanceInfo_readonly n w) as Hro.
      destruct (GetInstanceInfo n w) as [[info|e] w1]; simpl in Hro; subst w1; simpl;
        [| reflexivity].
      rewrite IH.
      destruct (collect _ _) as [infos|e]; simpl; [| reflexivity].
      now rewrite <- app_assoc.
    + rewrite filter_cons_False; [apply IH |]. rewrite Hrun. discriminate.
Qed.

(** What [GetInstanceInfo] returns for a running instance is a tuple that
    starts with the name asked for and ends with the two placeholders. *)
Lemma info_running_shape n w info :
  is_running n (os w) = true ->
  fst (GetInstanceInfo n w) = Ok info ->
  exists pid memory vcpus, info = Some (n, pid, memory, vcpus, "---b-", "0").
Proof.
  unfold is_running, pid_file_of, GetInstanceInfo. unfold_monad. simpl.
  intros ->. simpl.
  destruct (procs (os w) !! _) as [[err | cmdline] |]; simpl; try discriminate.
  destruct (scan_args _ _ _) as [[m v] | e]; simpl; [| discriminate].
  intros Heq. injection Heq as <-. eauto.
Qed.

(** X10. [GetAllInstancesInfo] only reads the host. Over the names that
    [ListInstances] returns, in the same order, it collects what
    [GetInstanceInfo] gives: when it returns, there is one tuple per
    listed instance, carrying that instance's name, and no entry is
    [None]; and it raises exactly when [GetInstanceInfo] raises for one
    of the listed instances, so that a single process with an unreadable
    command line or a dangling sizing flag makes the whole listing fail. *)
Theorem all_instances_info w :
  exists names,
    ListInstances w = (Ok names, w)
    /\ snd (GetAllInstancesInfo w) = w
    /\ fst (GetAllInstancesInfo w) = collect (fun n => fst (GetInstanceInfo n w)) names
    /\ (forall infos, fst (GetAllInstancesInfo w) = Ok infos ->
        Forall2 (fun n info =>
                   fst (GetInstanceInfo n w) = Ok info
                   /\ exists pid memory vcpus,
                        info = Some (n, pid, memory, vcpus, "---b-", "0"))
                names infos)
    /\ ((exists e, fst (GetAllInstancesInfo w) = Raise e)
        <-> exists n, n ∈ names /\ exists e, fst (GetInstanceInfo n w) = Raise e).
Proof.
  set (names := filter (fun n => is_running n (os w) = true)
                       (os_listdir _PIDS_DIR (os w))).
  assert (Hall : GetAllInstancesInfo w
                 = match collect (fun n => fst (GetInstanceInfo n w)) names with
                   | Ok infos => (Ok infos, w)
                   | Raise e => (Raise e, w)
                   end).
  { unfold GetAllInstancesInfo. unfold_monad. simpl. now rewrite info_loop_run. }
  assert (Hfst : fst (GetAllInstancesInfo w)
                 = collect (fun n => fst (GetInstanceInfo n w)) names).
  { rewrite Hall. now destruct (collect _ names). }
  exists names. split; [| split; [| split; [| split]]].
  - unfold ListInstances. unfold_monad. simpl. now rewrite list_loop_run.
  - rewrite Hall. now destruct (collect _ names).
  - exact Hfst.
  - intros infos Hok. rewrite Hfst in Hok. apply collect_Ok in Hok.
    assert (Hrunning : Forall (fun n => is_running n (os w) = true) names).
    { apply Forall_forall. intros n Hn. now apply list_elem_of_filter in Hn as [Hn _]. }
    clear Hall Hfst. induction Hok as [|n info names' infos' Hinfo Hrest IH];
      [constructor |].
    apply Forall_cons in Hrunning as [Hrun Hrunning].
    constructor; [| now apply IH].
    split; [exact Hinfo | now apply (info_running_shape n w)].
  - rewrite Hfst. apply collect_Raise.
Qed.

End AllInfoProperties.

Section StartProperties.
Context `{!Constants} `{!Host}.

(** ** StartInstance: the ways it fails *)

(** The files the loop over the NICs creates, whatever its outcome: at
    most one per NIC, each at a path [mkstemp] picked. *)
Lemma nic_loop_created instance nics : forall seq cmd temps w,
  exists created,
    trace (snd (nic_loop instance nics seq cmd temps w))
      = trace w ++ map EvCreateFile created
    /\ (length created <= length nics)%nat
    /\ Forall (fun p => exists o, mkstemp o = Some p) created.
Proof.
  induction nics as [|nic nics IH]; intros seq cmd temps w.
  - exists []. simpl. rewrite app_nil_r. auto.
  - simpl. unfold mbind, M_bind. rewrite WriteNetScript_run.
    destruct (mkstemp (os w)) as [path|] eqn:Htmp.
    + match goal with |- context [nic_loop instance nics ?s ?c ?t ?w1] =>
        destruct (IH s c t w1) as (created & Hc & Hlen & Hall) end.
      exists (path :: created). rewrite Hc. simpl. rewrite <- app_assoc.
      split; [reflexivity |]. split; [lia |]. constructor; eauto.
    + exists []. simpl. rewrite app_nil_r. split; [reflexivity |]. split; [lia | constructor].
Qed.

Lemma build_kvm_cmd_created instance block_devices pidfile w :
  exists created,
    trace (snd (build_kvm_cmd instance block_devices pidfile [] w))
      = trace w ++ map EvCreateFile created
    /\ (length created <= length (nics instance))%nat
    /\ Forall (fun p => exists o, mkstemp o = Some p) created.
Proof.
  unfold build_kvm_cmd, getitem. unfold_monad.
  assert (Hnil : exists created : list string,
             trace w = trace w ++ map EvCreateFile created
             /\ (length created <= length (nics instance))%nat
             /\ Forall (fun p => exists o, mkstemp o = Some p) created).
  { exists []. simpl. rewrite app_nil_r. split; [reflexivity |]. split; [lia | constructor]. }
  destruct (beparams instance !! BE_MEMORY) as [memory|]; [| exact Hnil].
  destruct (beparams instance !! BE_VCPUS) as [vcpus|]; [| exact Hnil].
  destruct (hvparams instance !! HV_ACPI) as [acpi|]; [| exact Hnil].
  destruct (nics instance) as [|nic nics'] eqn:Hnics.
  - destruct (hvparams instance !! HV_KERNEL_PATH) as [kernel|]; [| exact Hnil].
    destruct (hvparams instance !! HV_INITRD_PATH) as [initrd|]; exact Hnil.
  - match goal with |- context [nic_loop instance ?n ?s ?c ?t w] =>
      destruct (nic_loop_created instance n s c t w) as (created & Hc & Hlen & Hall);
      destruct (nic_loop instance n s c t w) as [[[c' t']|e] w1]
    end; simpl in Hc.
    + destruct (hvparams instance !! HV_KERNEL_PATH) as [kernel|]; [| eauto].
      destruct (hvparams instance !! HV_INITRD_PATH) as [initrd|]; eauto.
    + eauto.
Qed.

(** X11. Whenever [StartInstance] raises, for whatever reason, it has
    removed nothing: what it did is to create at most one file per NIC
    and then to run at most one launch command. The scripts written
    before a failure are left on the host. *)
Theorem start_failure_removes_nothing instance block_devices extra_args w e :
  fst (StartInstance instance block_devices extra_args w) = Raise e ->
  exists created launched,
    effects (StartInstance instance block_devices extra_args) w
      = map EvCreateFile created ++ launched
    /\ (length created <= length (nics instance))%nat
    /\ (launched = [] \/ exists cmd, launched = [EvRunCmd (Argv cmd)])
    /\ (forall path,
          ~ In (EvRemoveFile path) (effects (StartInstance instance block_devices extra_args) w)).
Proof.
  intros Hfail.
  assert (Hshape : exists created launched,
    effects (StartInstance instance block_devices extra_args) w
      = map EvCreateFile created ++ launched
    /\ (length created <= length (nics instance))%nat
    /\ (launched = [] \/ exists cmd, launched = [EvRunCmd (Argv cmd)])).
  { destruct (is_running (name instance) (os w)) eqn:Hrun.
    { destruct (start_refused instance block_devices extra_args w Hrun) as [_ He].
      exists [], []. rewrite He. simpl. split; [reflexivity |]. split; [lia | now left]. }
    pose proof (StartInstance_not_running instance block_devices extra_args w Hrun) as Hs.
    pose proof (build_kvm_cmd_created instance block_devices (pid_file_of (name instance)) w)
      as (created & Hcreated & Hlen & _).
    destruct (build_kvm_cmd instance block_devices (pid_file_of (name instance)) [] w)
      as [[[cmd scripts]|e0] w1] eqn:Hbuild.
    2:{ exists created, []. rewrite app_nil_r. split; [| split; [exact Hlen | now left]].
        apply effects_of_trace. rewrite Hs. exact Hcreated. }
    pose proof (build_kvm_cmd_ok _ _ _ _ _ _ Hbuild)
      as (m & v & a & k & i & _ & _ & _ & _ & _ & Hl & _ & Htrace & _ & _).
    cbv beta iota in Hs.
    destruct (run_cmd (Argv cmd) (os w1)) as [res o2] eqn:Hcmd.
    cbv beta iota zeta in Hs.
    exists scripts, [EvRunCmd (Argv cmd)].
    split; [| split; [lia | right; eauto]].
    apply effects_of_trace.
    destruct (failed res); [| destruct (is_running (name instance) o2)];
      rewrite Hs in Hfail |- *; simpl; try discriminate Hfail;
      rewrite Htrace, <- app_assoc; reflexivity. }
  destruct Hshape as (created & launched & Heff & Hlen & Hlaunched).
  exists created, launched. repeat split; auto.
  intros path Hin. rewrite Heff in Hin. apply in_app_or in Hin as [Hin | Hin].
  - apply in_map_iff in Hin as (p & Hp & _). discriminate Hp.
  - destruct Hlaunched as [-> | [cmd ->]]; [destruct Hin |].
    destruct Hin as [Hin | []]. discriminate Hin.
Qed.

(** X12. When the launch command fails, [StartInstance] raises a
    [HypervisorError] that names the instance and carries the reason of
    the failure and the output of the command; the host is left as the
    command left it, the post-launch check is not made. *)
Theorem start_launch_failed instance block_devices extra_args w cmd scripts w1 res o2 :
  is_running (name instance) (os w) = false ->
  build_kvm_cmd instance block_devices (pid_file_of (name instance)) [] w
    = (Ok (cmd, scripts), w1) ->
  run_cmd (Argv cmd) (os w1) = (res, o2) ->
  failed res = true ->
  StartInstance instance block_devices extra_args w
    = (Raise (HypervisorError
                ("Failed to start instance " +:+ name instance +:+ ": " +:+
                 fail_reason res +:+ " (" +:+ output res +:+ ")")),
       after_run (Argv cmd) o2 w1).
Proof.
  intros Hrun Hbuild Hcmd Hfail.
  rewrite (StartInstance_not_running _ _ _ _ Hrun), Hbuild, Hcmd.
  cbv beta iota zeta. now rewrite Hfail.
Qed.

(** X13. An instance that is not running and lacks a sizing parameter or
    the ACPI parameter: [StartInstance] raises the [KeyError] of the first
    missing key (memory, then vcpus, then ACPI) before it has done
    anything. *)
Theorem start_missing_sizing instance block_devices extra_args w :
  is_running (name instance) (os w) = false ->
  (beparams instance !! BE_MEMORY = None ->
   StartInstance instance block_devices extra_args w = (Raise (KeyError BE_MEMORY), w))
  /\ (is_Some (beparams instance !! BE_MEMORY) ->
      beparams instance !! BE_VCPUS = None ->
      StartInstance instance block_devices extra_args w = (Raise (KeyError BE_VCPUS), w))
  /\ (is_Some (beparams instance !! BE_MEMORY) ->
      is_Some (beparams instance !! BE_VCPUS) ->
      hvparams instance !! HV_ACPI = None ->
      StartInstance instance block_devices extra_args w = (Raise (KeyError HV_ACPI), w)).
Proof.
  intros Hrun. rewrite (StartInstance_not_running _ _ _ _ Hrun).
  unfold build_kvm_cmd, getitem. unfold_monad.
  split; [| split].
  - intros ->. reflexivity.
  - intros [m ->] ->. reflexivity.
  - intros [m ->] [v ->] ->. reflexivity.
Qed.

(** X14. An instance that is not running, has its sizing and ACPI
    parameters but no kernel entry (or a kernel entry and no initrd
    entry), on a host where temporary files can be made: [StartInstance]
    raises the [KeyError] only after it has written one script per NIC;
    it launches nothing and the scripts stay. *)
Theorem start_missing_kernel instance block_devices extra_args w memory vcpus acpi :
  is_running (name instance) (os w) = false ->
  (forall o, is_Some (mkstemp o)) ->
  beparams instance !! BE_MEMORY = Some memory ->
  beparams instance !! BE_VCPUS = Some vcpus ->
  hvparams instance !! HV_ACPI = Some acpi ->
  hvparams instance !! HV_KERNEL_PATH = None
  \/ (is_Some (hvparams instance !! HV_KERNEL_PATH)
      /\ hvparams instance !! HV_INITRD_PATH = None) ->
  exists scripts,
    fst (StartInstance instance block_devices extra_args w)
      = Raise (KeyError (match hvparams instance !! HV_KERNEL_PATH with
                         | Some _ => HV_INITRD_PATH
                         | None => HV_KERNEL_PATH
                         end))
    /\ effects (StartInstance instance block_devices extra_args) w
         = map EvCreateFile scripts
    /\ length scripts = length (nics instance).
Proof.
  intros Hrun Htmp Hm Hv Ha Hmissing.
  rewrite (StartInstance_not_running _ _ _ _ Hrun).
  unfold effects. rewrite (StartInstance_not_running _ _ _ _ Hrun).
  unfold build_kvm_cmd, getitem. unfold_monad. rewrite Hm, Hv, Ha.
  destruct (nics instance) as [|nic nics'] eqn:Hnics.
  - exists []. destruct Hmissing as [-> | [[k ->] ->]]; simpl;
      (split; [reflexivity |]); (split; [apply drop_all | reflexivity]).
  - match goal with |- context [nic_loop instance ?n ?s ?c ?t w] =>
      destruct (nic_loop_total instance n Htmp s c t w) as ([c' t'] & w1 & Hloop)
    end.
    rewrite Hloop.
    apply nic_loop_ok in Hloop as (scripts & Hlen & _ & _ & Htrace & _).
    exists scripts.
    destruct Hmissing as [-> | [[k ->] ->]]; simpl;
      (split; [reflexivity |]); (split; [| exact Hlen]);
      rewrite Htrace; apply drop_app_length.
Qed.

(** X15. When [mkstemp] fails for the first NIC of an instance that is
    not running, [StartInstance] raises the [OSError] and the host is
    untouched: nothing was written, nothing is launched. *)
Theorem start_mkstemp_failed instance block_devices extra_args w memory vcpus acpi :
  is_running (name instance) (os w) = false ->
  beparams instance !! BE_MEMORY = Some memory ->
  beparams instance !! BE_VCPUS = Some vcpus ->
  hvparams instance !! HV_ACPI = Some acpi ->
  nics instance <> [] ->
  mkstemp (os w) = None ->
  StartInstance instance block_devices extra_args w = (Raise (OSError "mkstemp"), w).
Proof.
  intros Hrun Hm Hv Ha Hnics Htmp.
  rewrite (StartInstance_not_running _ _ _ _ Hrun).
  unfold build_kvm_cmd, getitem. unfold_monad. rewrite Hm, Hv, Ha.
  destruct (nics instance) as [|nic nics']; [contradiction |].
  simpl. unfold mbind, M_bind. rewrite WriteNetScript_run, Htmp. reflexivity.
Qed.

End StartProperties.

(** * The further properties on the concrete node *)

Section MoreOnNode.
#[local] Existing Instance Node.constants.

Lemma stop_not_running_witness :
  let stop := @StopInstance Node.constants Node.good_host Node.web1 false in
  stop Scenes.stale = (Ok tt, after_remove (pid_file_of "web1") Scenes.stale)
  /\ effects stop Scenes.stale = [EvRemoveFile (pid_file_of "web1")]
  /\ files (os (snd (stop Scenes.stale))) !! pid_file_of "web1" = None
  /\ procs (os (snd (stop Scenes.stale))) = procs (os Scenes.stale)
  /\ is_running "web1" (os (snd (stop Scenes.stale))) = false.
Proof.
  apply (@stop_not_running Node.constants Node.good_host Node.web1 false Scenes.stale).
  vm_compute. reflexivity.
Defined.

Lemma stop_forced_witness :
  @StopInstance Node.constants Node.good_host Node.web1 true Node.running
    = (Ok tt,
       after_remove (pid_file_of "web1") (@after_kill Node.good_host 4242%Z Node.running))
  /\ is_running "web1"
       (os (snd (@StopInstance Node.constants Node.good_host Node.web1 true Node.running)))
     = false.
Proof.
  destruct (@stop_forced Node.constants Node.good_host Node.web1 Node.running)
    as (Hstop & _ & Hgone); [vm_compute; reflexivity |].
  split; [exact Hstop |].
  apply Hgone. vm_compute. reflexivity.
Defined.

Lemma stop_without_acpi_is_forced_witness :
  @StopInstance Node.constants Node.good_host Scenes.web1_no_acpi false Node.running
  = @StopInstance Node.constants Node.good_host Scenes.web1_no_acpi true Node.running.
Proof.
  apply (@stop_without_acpi_is_forced Node.constants Node.good_host
           Scenes.web1_no_acpi Node.running (VBool false));
    vm_compute; reflexivity.
Defined.

Lemma stop_graceful_delivered_witness :
  @StopInstance Node.constants Node.good_host Node.web1 false Node.running
    = (Ok tt, after_run (Shell (powerdown_command Node.web1)) Node.running_os Node.running)
  /\ (forall p, ~ In (EvKillProcess p)
                    (effects (@StopInstance Node.constants Node.good_host Node.web1 false)
                       Node.running)).
Proof.
  apply (@stop_graceful_delivered Node.constants Node.good_host Node.web1 Node.running
           (VBool true) (mkRunResult false "" "") Node.running_os);
    vm_compute; reflexivity.
Defined.

Lemma stop_missing_acpi_witness :
  @StopInstance Node.constants Node.good_host Scenes.web1_acpi_unset false Node.running
  = (Raise (KeyError "acpi"), Node.running).
Proof.
  apply (@stop_missing_acpi Node.constants Node.good_host
           Scenes.web1_acpi_unset Node.running);
    vm_compute; reflexivity.
Defined.

Lemma info_unreadable_cmdline_witness :
  GetInstanceInfo "web1" Scenes.unreadable
  = (Raise (HypervisorError
              "Failed to list instance web1: [Errno 13] Permission denied"),
     Scenes.unreadable).
Proof.
  apply (@info_unreadable_cmdline Node.constants "web1" Scenes.unreadable
           "[Errno 13] Permission denied");
    vm_compute; reflexivity.
Defined.

Lemma info_fails_iff_dangling_flag_witness :
  exists e, fst (GetInstanceInfo "web1" Scenes.dangling) = Raise e.
Proof.
  destruct (@info_fails_iff_dangling_flag Node.constants "web1" Scenes.dangling
              ("/usr/bin/kvm" +:+ String NUL "-m")) as [Hiff _];
    try (vm_compute; reflexivity).
  apply Hiff. exists ["/usr/bin/kvm"], "-m".
  split; [vm_compute; reflexivity |]. split; [| now left].
  exists (VInt 0), (VInt 0). reflexivity.
Defined.

Lemma start_failure_removes_nothing_witness :
  let start :=
    @StartInstance Node.constants Node.dying_daemon_host Node.web1 Node.disks VNone in
  exists created launched,
    effects start Node.fresh = map EvCreateFile created ++ launched
    /\ (length created <= length (nics Node.web1))%nat
    /\ (launched = [] \/ exists cmd, launched = [EvRunCmd (Argv cmd)])
    /\ (forall path, ~ In (EvRemoveFile path) (effects start Node.fresh)).
Proof.
  apply (@start_failure_removes_nothing Node.constants Node.dying_daemon_host
           Node.web1 Node.disks VNone Node.fresh
           (TypeError "not enough arguments for format string")).
  vm_compute. reflexivity.
Defined.

Lemma start_launch_failed_witness :
  exists at_launch,
    @StartInstance Node.constants Scenes.failing_launcher_host
      Node.web1 Node.disks VNone Node.fresh
    = (Raise (HypervisorError
                "Failed to start instance web1: exited with exit code 1 (kvm: failed)"),
       after_run (Argv (Node.web1_cmd "/boot/vmlinuz-2.6-kvmU")) (os at_launch) at_launch).
Proof.
  eexists.
  eapply (@start_launch_failed Node.constants Scenes.failing_launcher_host
            Node.web1 Node.disks VNone Node.fresh
            (Node.web1_cmd "/boot/vmlinuz-2.6-kvmU") ["/tmp/tmp2"; "/tmp/tmp3"] _
            (mkRunResult true "exited with exit code 1" "kvm: failed")).
  - vm_compute. reflexivity.
  - vm_compute. reflexivity.
  - reflexivity.
  - reflexivity.
Defined.

Lemma start_missing_sizing_witness :
  @StartInstance Node.constants Node.good_host Scenes.web1_unsized Node.disks VNone Node.fresh
  = (Raise (KeyError "memory"), Node.fresh).
Proof.
  destruct (@start_missing_sizing Node.constants Node.good_host
              Scenes.web1_unsized Node.disks VNone Node.fresh) as [Hmem _];
    [vm_compute; reflexivity |].
  apply Hmem. vm_compute. reflexivity.
Defined.

Lemma start_missing_kernel_witness :
  let start :=
    @StartInstance Node.constants Node.good_host Scenes.web1_kernel_unset Node.disks VNone in
  exists scripts,
    fst (start Node.fresh) = Raise (KeyError "kernel_path")
    /\ effects start Node.fresh = map EvCreateFile scripts
    /\ length scripts = 2%nat.
Proof.
  apply (@start_missing_kernel Node.constants Node.good_host
           Scenes.web1_kernel_unset Node.disks VNone Node.fresh
           (VInt 512) (VInt 2) (VBool true)).
  - vm_compute. reflexivity.
  - intros o. eexists. reflexivity.
  - vm_compute. reflexivity.
  - vm_compute. reflexivity.
  - vm_compute. reflexivity.
  - left. vm_compute. reflexivity.
Defined.

Lemma start_mkstemp_failed_witness :
  @StartInstance Node.constants Scenes.full_tmp_host Node.web1 Node.disks VNone Node.fresh
  = (Raise (OSError "mkstemp"), Node.fresh).
Proof.
  apply (@start_mkstemp_failed Node.constants Scenes.full_tmp_host
           Node.web1 Node.disks VNone Node.fresh (VInt 512) (VInt 2) (VBool true));
    try (vm_compute; reflexivity).
  discriminate.
Defined.

(** The listing on the node where web1 runs, with a stale PID file for a
    second instance beside it. *)
Example listing_skips_stale :
  let o := {| files := <["/var/run/ganeti/kvm-hypervisor/pid/old1" := File "77" 420]>
                         (files Node.running_os);
              procs := procs Node.running_os |} in
  fst (ListInstances {| os := o; trace := [] |}) = Ok ["web1"]
  /\ fst (GetAllInstancesInfo {| os := o; trace := [] |})
     = Ok [Some ("web1", 4242%Z, VStr "512", VStr "2", "---b-", "0")].
Proof. vm_compute. split; reflexivity. Qed.

End MoreOnNode.

Section StartSuccess.
Context `{!Constants} `{!Host}.

(** ** StartInstance, then the registry *)

Lemma foldl_delete_other (paths : list string) : forall (m : gmap string file) p,
  ~ In p paths -> foldl (fun m p => delete p m) m paths !! p = m !! p.
Proof.
  induction paths as [|q paths IH]; intros m p Hp; [reflexivity |].
  simpl. rewrite IH by (intros Hin; apply Hp; now right).
  apply lookup_delete_ne. intros ->. apply Hp. now left.
Qed.

(** The scripts of a completed build phase are paths [mkstemp] picked. *)
Lemma build_scripts_from_mkstemp instance block_devices w cmd scripts w1 :
  build_kvm_cmd instance block_devices (pid_file_of (name instance)) [] w
    = (Ok (cmd, scripts), w1) ->
  Forall (fun p => exists o, mkstemp o = Some p) scripts.
Proof.
  intros Hbuild.
  destruct (build_kvm_cmd_created instance block_devices (pid_file_of (name instance)) w)
    as (created & Hcreated & _ & Hall).
  apply build_kvm_cmd_ok in Hbuild as Hok.
  destruct Hok as (m & v & a & k & i & _ & _ & _ & _ & _ & _ & _ & Htrace & _).
  rewrite Hbuild in Hcreated. simpl in Hcreated. rewrite Htrace in Hcreated.
  apply app_inv_head in Hcreated.
  assert (scripts = created) as ->; [| exact Hall].
  clear -Hcreated. revert created Hcreated.
  induction scripts as [|s scripts IH]; intros [|c created] Heq;
    try discriminate Heq; [reflexivity |].
  simpl in Heq. injection Heq as -> Heq. f_equal. now apply IH.
Qed.

(** X16. On a host whose temporary files are never made at the path of
    the instance's PID file, a [StartInstance] that returns normally
    leaves the instance running, and a second [StartInstance] of the same
    instance, with whatever block devices, is refused as already running
    and changes nothing. *)
Theorem start_then_running instance block_devices extra_args w w' :
  (forall o, mkstemp o <> Some (pid_file_of (name instance))) ->
  StartInstance instance block_devices extra_args w = (Ok tt, w') ->
  is_running (name instance) (os w') = true
  /\ forall block_devices' extra_args',
       StartInstance instance block_devices' extra_args' w'
       = (Raise (HypervisorError
                   ("Failed to start instance " +:+ name instance +:+ ": already running")),
          w').
Proof.
  intros Htmp Hstart.
  assert (Hrunning : is_running (name instance) (os w') = true).
  { destruct (is_running (name instance) (os w)) eqn:Hrun.
    { destruct (start_refused instance block_devices extra_args w Hrun) as [He _].
      rewrite He in Hstart. discriminate Hstart. }
    rewrite (StartInstance_not_running _ _ _ _ Hrun) in Hstart.
    destruct (build_kvm_cmd instance block_devices (pid_file_of (name instance)) [] w)
      as [[[cmd scripts]|e] w1] eqn:Hbuild; [| discriminate Hstart].
    apply build_scripts_from_mkstemp in Hbuild as Hscripts.
    destruct (run_cmd (Argv cmd) (os w1)) as [res o2].
    cbv beta iota zeta in Hstart.
    destruct (failed res); [discriminate Hstart |].
    destruct (is_running (name instance) o2) eqn:Hrun2; [| discriminate Hstart].
    injection Hstart as <-.
    unfold is_running, read_pid_file, without_files in *. simpl.
    rewrite foldl_delete_other; [exact Hrun2 |].
    intros Hin. rewrite Forall_forall in Hscripts.
    destruct (Hscripts _ (proj2 (list_elem_of_In _ _) Hin)) as [o Ho].
    exact (Htmp o Ho). }
  split; [exact Hrunning |].
  intros bd' extra'. now apply start_refused.
Qed.

End StartSuccess.

Lemma start_then_running_witness :
  let w' := snd (@StartInstance Node.constants Node.good_host
                   Node.web1 Node.disks VNone Node.fresh) in
  @is_running Node.constants "web1" (os w') = true
  /\ forall block_devices' extra_args',
       @StartInstance Node.constants Node.good_host Node.web1 block_devices' extra_args' w'
       = (Raise (HypervisorError "Failed to start instance web1: already running"), w').
Proof.
  apply (@start_then_running Node.constants Node.good_host
           Node.web1 Node.disks VNone Node.fresh).
  - intros o Heq. vm_compute in Heq. discriminate Heq.
  - vm_compute. reflexivity.
Defined.

Section RuntimeCheck.
Context `{!Constants} `{!Host}.

(** ** ValidateParameters *)

(** X17. For a parameter mapping whose kernel path is a string and
    whose initrd path is a string or [None], and which passes the check
    of the base class, [ValidateParameters] only reads the host and
    returns normally exactly when the kernel path names a regular file and
    the initrd path, if given, names one too. Otherwise it raises a
    [HypervisorError] that quotes the path at fault, the kernel first.
    Whether the paths are absolute plays no part. *)
Theorem runtime_check hv kernel initrd w :
  base_ValidateParameters hv (os w) = Ok tt ->
  hv !! HV_KERNEL_PATH = Some (VStr kernel) ->
  hv !! HV_INITRD_PATH = Some initrd -> is_path initrd ->
  snd (ValidateParameters hv w) = w
  /\ (fst (ValidateParameters hv w) = Ok tt
      <-> is_Some (files (os w) !! kernel)
          /\ (truthy initrd = false
              \/ exists i, initrd = VStr i /\ is_Some (files (os w) !! i)))
  /\ (files (os w) !! kernel = None ->
      fst (ValidateParameters hv w)
      = Raise (HypervisorError
                 ("Instance kernel '" +:+ kernel +:+ "' not found or not a file")))
  /\ (forall i, is_Some (files (os w) !! kernel) ->
        initrd = VStr i -> i <> "" -> files (os w) !! i = None ->
        fst (ValidateParameters hv w)
        = Raise (HypervisorError
                   ("Instance initrd '" +:+ i +:+ "' not found or not a file"))).
Proof.
  intros Hbase Hk Hi Hip.
  unfold ValidateParameters, getitem, os_path_isfile. unfold_monad.
  rewrite Hbase, Hk. simpl.
  destruct (files (os w) !! kernel) as [kf|] eqn:Hkf; simpl.
  - rewrite Hi. simpl.
    destruct Hip as [-> | [i ->]]; simpl.
    + split; [reflexivity |]. split; [| split].
      * split; [intros _ | reflexivity]. split; [eauto | now left].
      * discriminate.
      * intros i _ Heq. discriminate Heq.
    + destruct (String.eqb_spec i "") as [-> | Hne]; simpl.
      * split; [reflexivity |]. split; [| split].
        -- split; [intros _ | reflexivity]. split; [eauto | now left].
        -- discriminate.
        -- intros i _ Heq Hne. injection Heq as <-. contradiction.
      * destruct (files (os w) !! i) as [f|] eqn:Hif; simpl.
        -- split; [reflexivity |]. split; [| split].
           ++ split; [intros _ | reflexivity]. split; [eauto |].
              right. exists i. rewrite Hif. eauto.
           ++ discriminate.
           ++ intros i' _ Heq _ Hnone. injection Heq as <-. rewrite Hif in Hnone.
              discriminate Hnone.
        -- split; [reflexivity |]. split; [| split].
           ++ split; [discriminate |].
              intros [_ [Hf | (i' & Heq & Hsome)]].
              ** discriminate Hf.
              ** injection Heq as <-. rewrite Hif in Hsome. now destruct Hsome.
           ++ discriminate.
           ++ intros i' _ Heq _ _. injection Heq as <-. reflexivity.
  - split; [reflexivity |]. split; [| split].
    + split; [discriminate |]. intros [[f Hf] _]. discriminate Hf.
    + reflexivity.
    + intros i [f Hf]. discriminate Hf.
Qed.

End RuntimeCheck.

(** On a node that has the file [vmlinuz], a mapping with that relative
    kernel path passes the runtime check, though the syntax check rejects
    it. *)
Lemma runtime_check_witness :
  let o := {| files := <["vmlinuz" := File "" 420]> (files Node.fresh_os); procs := ∅ |} in
  let w := {| os := o; trace := [] |} in
  fst (@ValidateParameters Node.constants Node.good_host
         (hvparams Node.web1_relative_kernel) w) = Ok tt
  /\ @CheckParameterSyntax Node.constants Node.good_host
       (hvparams Node.web1_relative_kernel)
     = Raise (HypervisorError "The kernel path must an absolute path").
Proof.
  split; [| vm_compute; reflexivity].
  refine (proj2 (proj1 (proj2
    (@runtime_check Node.constants Node.good_host (hvparams Node.web1_relative_kernel)
       "vmlinuz" (VStr "") _ _ _ _ _))) _).
  - reflexivity.
  - vm_compute. reflexivity.
  - vm_compute. reflexivity.
  - right. eexists. reflexivity.
  - split; [vm_compute; eauto | left; reflexivity].
Defined.
